(** * The Streamlit front end of the PDF question-answering assistant

    A shallow embedding of [src/app.py]: the session state, the sidebar that
    takes an upload and drives ingestion, and the chat interface that drives
    retrieval, generation and source matching.

    Streamlit re-runs the script from the top on every interaction.  One run is
    modelled as a computation over a [World] (the session state, the local
    files, whatever lives behind the external services, and the values the
    front-end widgets hold for this run) that also produces the ordered list of
    everything the run did: widgets rendered, [with] blocks entered and left,
    calls into [tools], files written.  Every call is taken to return: a run in
    which a service or the file system raises is not described. *)

From Stdlib Require Import ZArith QArith Lia.
From Stdlib Require Import Init.Byte.
From stdpp Require Import base option list strings gmap.

Local Open Scope string_scope.
Local Open Scope list_scope.
Local Open Scope Z_scope.

(** ** Data *)

(** What [st.file_uploader] hands back: an object with a [name], a [size] in
    bytes and the content behind [getvalue()]. *)
Module UploadedFile.
Record t : Type := mk { name : string; size : Z; getvalue : list byte }.
End UploadedFile.

(** A highlighted chunk is read by the interface through its two keys,
    [chunk['source']] and [chunk['text']]. *)
Record SourceChunk : Type := { source : string; text : string }.

(** A conversation message is a dict with the keys ["role"] and ["content"],
    and for some messages the key ["highlighted_chunks"]; the optional key is
    an [option]. *)
Module Message.
Record t : Type :=
  mk { role : string; content : string; highlighted_chunks : option (list SourceChunk) }.
End Message.

(** The shape of a message that [create_chat_interface] stores: its role is
    ["user"] or ["assistant"], and an assistant message has the key
    ["highlighted_chunks"]. *)
Definition stored_message_ok (m : Message.t) : Prop :=
  (Message.role m = "user" \/ Message.role m = "assistant") /\
  (Message.role m = "assistant" -> is_Some (Message.highlighted_chunks m)).

(** [st.session_state] once [init_session_state] has run. *)
Record SessionState : Type := {
  messages : list Message.t;
  document_loaded : bool;
  document_name : option string;
  highlighted_chunks : list SourceChunk
}.

(** [st.session_state] as the script finds it: each key is there or not. *)
Record RawSessionState : Type := {
  raw_messages : option (list Message.t);
  raw_document_loaded : option bool;
  raw_document_name : option (option string);
  raw_highlighted_chunks : option (list SourceChunk)
}.

Definition init_session_state (s : RawSessionState) : SessionState :=
  {| messages := default [] (raw_messages s);
     document_loaded := default false (raw_document_loaded s);
     document_name := default None (raw_document_name s);
     highlighted_chunks := default [] (raw_highlighted_chunks s) |}.

Definition new_session : RawSessionState :=
  {| raw_messages := None; raw_document_loaded := None;
     raw_document_name := None; raw_highlighted_chunks := None |}.

(** The values the two input widgets return in this run. *)
Record Widgets : Type := {
  file_uploader : option UploadedFile.t;
  chat_input : option string
}.

(** ** Python's truth tests and comparisons used by the interface *)

(** [a > b] on numbers.  [uploaded_file.size / (1024 * 1024)] is a float
    division by a power of two, exact for every size below 2^53 bytes, and
    Python compares a float with an int or a float by value; rationals give the
    same answers. *)
Definition Qgtb (a b : Q) : bool := negb (Qle_bool a b).

(** [size / (1024 * 1024)] *)
Definition megabytes (size : Z) : Q := (inject_Z size / inject_Z (1024 * 1024))%Q.

(** [if s:] on a string and [if l:] on a list. *)
Definition truthy_str (s : string) : bool := negb (String.eqb s "").
Definition truthy_list {A} (l : list A) : bool :=
  match l with [] => false | _ :: _ => true end.

(** ** What a run renders and does *)

Inductive Heading : Type := DocumentUpload | AskQuestions.

Inductive Container : Type :=
  | Sidebar                         (* with st.sidebar *)
  | Spinner (label : string)        (* with st.spinner(label) *)
  | ChatMessage (role : string)     (* with st.chat_message(role) *)
  | Expander (label : string).      (* with st.expander(label) *)

(** The texts of [st.error], [st.success] and [st.markdown], by the values
    their f-strings are built from. *)
Inductive ErrorText : Type :=
  | FileTooLarge (file_size_mb file_size_limit_mb : Q)
  | FailedToProcess.

Inductive SuccessText : Type :=
  | Processed (name : string) (chunk_count : Z)
  | LoadedAndReady (name : string).

Inductive MarkdownText : Type :=
  | Plain (body : string)
  | SourceChunkTitle (number : nat) (source : string)
  | PleaseUploadFirst.

Section Interface.

(** The collaborators the interface is handed and never looks into. *)
Context {Tokenizer EmbeddingModel PineconeIndex GroqClient : Type}.
(** A retrieved chunk, as [retrieve_relevant_chunks] returns it. *)
Context {Chunk : Type}.
(** Everything behind the external services (vector index, models). *)
Context {Ext : Type}.

Inductive Event : Type :=
  | Enter (c : Container)
  | Leave (c : Container)
  | StHeader (h : Heading)
  | StFileUploader (file_size_limit_mb : Q)
  | StCaption (file_size_limit_mb : Q)
  | StChatInput
  | StError (e : ErrorText)
  | StSuccess (m : SuccessText)
  | StMarkdown (body : MarkdownText) (unsafe_allow_html : bool)
  | StText (body : string)
  | ProcessPdfDocument (f : UploadedFile.t) (success : bool) (chunk_count : Z)
  | RetrieveRelevantChunks (query : string) (chunks : list Chunk)
  | GenerateResponse (query : string) (chunks : list Chunk) (response : string)
  | HighlightMatchingChunks (response : string) (chunks : list Chunk)
                            (highlighted : list SourceChunk)
  | GetPdfDownloadLink (name : string) (link : string)
  | PathExists (name : string) (found : bool)
  | WriteFile (name : string) (data : list byte).

Record World : Type := {
  session : SessionState;
  fs : gmap string (list byte);
  ext : Ext;
  widgets : Widgets
}.

(** ** Run steps *)

(** A step of a run: its value, the world after it, what it did. *)
Definition M (A : Type) : Type := World -> A * World * list Event.

Definition ret {A} (a : A) : M A := fun w => (a, w, []).

Definition bind {A B} (m : M A) (k : A -> M B) : M B :=
  fun w =>
    let '(a, w1, t1) := m w in
    let '(b, w2, t2) := k a w1 in
    (b, w2, t1 ++ t2).

Notation "x <- m ;; k" := (bind m (fun x => k))
  (at level 100, m at next level, right associativity).
Notation "m ;; k" := (bind m (fun _ => k))
  (at level 100, right associativity).

Definition emit (e : Event) : M unit := fun w => (tt, w, [e]).

Definition get_session : M SessionState := fun w => (session w, w, []).

Definition put_session (s : SessionState) : M unit :=
  fun w => (tt, {| session := s; fs := fs w; ext := ext w; widgets := widgets w |}, []).

(** [st.session_state.document_loaded = b] *)
Definition set_document_loaded (b : bool) : M unit :=
  s <- get_session ;;
  put_session {| messages := messages s; document_loaded := b;
                 document_name := document_name s;
                 highlighted_chunks := highlighted_chunks s |}.

(** [st.session_state.document_name = n] *)
Definition set_document_name (n : option string) : M unit :=
  s <- get_session ;;
  put_session {| messages := messages s; document_loaded := document_loaded s;
                 document_name := n;
                 highlighted_chunks := highlighted_chunks s |}.

(** [st.session_state.messages.append(m)] *)
Definition append_message (m : Message.t) : M unit :=
  s <- get_session ;;
  put_session {| messages := messages s ++ [m]; document_loaded := document_loaded s;
                 document_name := document_name s;
                 highlighted_chunks := highlighted_chunks s |}.

(** [with c: body] *)
Definition within {A} (c : Container) (body : M A) : M A :=
  emit (Enter c) ;; a <- body ;; emit (Leave c) ;; ret a.

(** [for x in l: body] *)
Fixpoint for_each {A} (l : list A) (body : A -> M unit) : M unit :=
  match l with
  | [] => ret tt
  | x :: l' => body x ;; for_each l' body
  end.

Definition enumerate {A} (l : list A) : list (nat * A) := imap pair l.

(** [st.file_uploader(...)] and [st.chat_input(...)] render the widget and
    return the value it holds. *)
Definition st_file_uploader (file_size_limit_mb : Q) : M (option UploadedFile.t) :=
  fun w => (file_uploader (widgets w), w, [StFileUploader file_size_limit_mb]).

Definition st_chat_input : M (option string) :=
  fun w => (chat_input (widgets w), w, [StChatInput]).

(** [with open(name, "wb") as f: f.write(data)] and [os.path.exists(name)] *)
Definition write_file (name : string) (data : list byte) : M unit :=
  fun w => (tt, {| session := session w; fs := <[name := data]> (fs w);
                   ext := ext w; widgets := widgets w |},
            [WriteFile name data]).

Definition path_exists (name : string) : M bool :=
  fun w => let found := bool_decide (is_Some (fs w !! name)) in
           (found, w, [PathExists name found]).

(** A call into an external service: it may read and change what is behind
    the services, and nothing else. *)
Definition call {A} (f : Ext -> A * Ext) (log : A -> Event) : M A :=
  fun w => let '(a, e) := f (ext w) in
           (a, {| session := session w; fs := fs w; ext := e; widgets := widgets w |},
            [log a]).

(** ** The functions imported from [tools]

    Their code is not part of this file's source; the interface is stated
    for any functions of these shapes.  [process_pdf_document] returns
    [(success, chunk_count)]. *)
Variable process_pdf_document :
  UploadedFile.t -> Tokenizer -> EmbeddingModel -> PineconeIndex -> Z -> Z ->
  Ext -> (bool * Z) * Ext.
Variable retrieve_relevant_chunks :
  string -> PineconeIndex -> Tokenizer -> EmbeddingModel -> Ext -> list Chunk * Ext.
Variable highlight_matching_chunks :
  string -> list Chunk -> Ext -> list SourceChunk * Ext.
Variable get_pdf_download_link :
  string -> gmap string (list byte) -> Ext -> string * Ext.

(** [st.markdown(get_pdf_download_link(name), unsafe_allow_html=True)] *)
Definition download_link (name : string) : M unit :=
  link <- (fun w => call (get_pdf_download_link name (fs w))
                         (GetPdfDownloadLink name) w) ;;
  emit (StMarkdown (Plain link) true).

(** ** [create_sidebar] *)

Definition create_sidebar (tokenizer : Tokenizer) (embedding_model : EmbeddingModel)
    (pinecone_index : PineconeIndex) (chunk_size chunk_overlap : Z)
    (file_size_limit_mb : Q) : M (option UploadedFile.t) :=
  within Sidebar (
    emit (StHeader DocumentUpload) ;;
    uploaded_file <- st_file_uploader file_size_limit_mb ;;
    emit (StCaption file_size_limit_mb) ;;
    match uploaded_file with
    | Some f =>
        let file_size_mb := megabytes (UploadedFile.size f) in
        (if Qgtb file_size_mb file_size_limit_mb then
           emit (StError (FileTooLarge file_size_mb file_size_limit_mb)) ;;
           set_document_loaded false ;;
           set_document_name None
         else
           s <- get_session ;;
           if bool_decide (document_name s ≠ Some (UploadedFile.name f)) then
             set_document_loaded false ;;
             set_document_name (Some (UploadedFile.name f))
           else ret tt) ;;
        s <- get_session ;;
        if negb (document_loaded s) then
          within (Spinner "Processing document...") (
            r <- call (process_pdf_document f tokenizer embedding_model pinecone_index
                         chunk_size chunk_overlap)
                      (fun r => ProcessPdfDocument f (fst r) (snd r)) ;;
            let '(success, chunk_count) := r in
            if success then
              set_document_loaded true ;;
              emit (StSuccess (Processed (UploadedFile.name f) chunk_count)) ;;
              write_file (UploadedFile.name f) (UploadedFile.getvalue f) ;;
              download_link (UploadedFile.name f)
            else
              emit (StError FailedToProcess))
        else
          emit (StSuccess (LoadedAndReady (UploadedFile.name f))) ;;
          found <- path_exists (UploadedFile.name f) ;;
          if found then download_link (UploadedFile.name f) else ret tt
    | None => ret tt
    end ;;
    ret uploaded_file).

(** ** [create_chat_interface] *)

(** The loop that lists source chunks, written twice in the source: for a
    stored message and for the answer just produced. *)
Definition show_source_chunks (chunks : list SourceChunk) : M unit :=
  within (Expander "View Source Chunks") (
    for_each (enumerate chunks) (fun '(i, chunk) =>
      emit (StMarkdown (SourceChunkTitle (i + 1)%nat (source chunk)) false) ;;
      emit (StText (text chunk)))).

(** The body of the loop over the stored messages. *)
Definition show_message (message : Message.t) : M unit :=
  within (ChatMessage (Message.role message)) (
    emit (StMarkdown (Plain (Message.content message)) false) ;;
    if String.eqb (Message.role message) "assistant" then
      match Message.highlighted_chunks message with
      | Some chunks => show_source_chunks chunks
      | None => ret tt
      end
    else ret tt).

Definition create_chat_interface (groq_client : GroqClient) (tokenizer : Tokenizer)
    (embedding_model : EmbeddingModel) (pinecone_index : PineconeIndex)
    (llm_model : string)
    (generate_response_func :
       string -> list Chunk -> GroqClient -> string -> Ext -> string * Ext) : M unit :=
  emit (StHeader AskQuestions) ;;
  s <- get_session ;;
  for_each (messages s) show_message ;;
  submitted <- st_chat_input ;;
  match submitted with
  | Some user_query =>
      if truthy_str user_query then
        s <- get_session ;;
        if negb (document_loaded s) then
          within (ChatMessage "assistant") (
            emit (StMarkdown PleaseUploadFirst false))
        else
          append_message (Message.mk "user" user_query None) ;;
          within (ChatMessage "user") (
            emit (StMarkdown (Plain user_query) false)) ;;
          answer <- within (ChatMessage "assistant") (
            within (Spinner "Thinking...") (
              chunks <- call (retrieve_relevant_chunks user_query pinecone_index
                                tokenizer embedding_model)
                             (RetrieveRelevantChunks user_query) ;;
              response <- call (generate_response_func user_query chunks
                                  groq_client llm_model)
                               (GenerateResponse user_query chunks) ;;
              emit (StMarkdown (Plain response) false) ;;
              highlighted <- call (highlight_matching_chunks response chunks)
                                  (HighlightMatchingChunks response chunks) ;;
              (if truthy_list highlighted
               then show_source_chunks highlighted else ret tt) ;;
              ret (response, highlighted))) ;;
          append_message (Message.mk "assistant" (fst answer) (Some (snd answer)))
      else ret tt
  | None => ret tt
  end.

(** ** Reading a run *)

Definition value_of {A} (r : A * World * list Event) : A := fst (fst r).
Definition world_of {A} (r : A * World * list Event) : World := snd (fst r).
Definition trace_of {A} (r : A * World * list Event) : list Event := snd r.

(** The calls into [tools] and into the answer generator. *)
Definition is_call (e : Event) : bool :=
  match e with
  | ProcessPdfDocument _ _ _ | RetrieveRelevantChunks _ _ | GenerateResponse _ _ _
  | HighlightMatchingChunks _ _ _ | GetPdfDownloadLink _ _ => true
  | _ => false
  end.

Definition calls (t : list Event) : list Event := List.filter is_call t.

(** What the loop over the stored messages renders. *)
Definition history (w : World) : list Event :=
  trace_of (for_each (messages (session w)) show_message w).

(** A step that only renders: the world is as before and nothing was called. *)
Definition renders_only {A} (m : M A) : Prop :=
  forall w, world_of (m w) = w /\ calls (trace_of (m w)) = [].

End Interface.

Arguments Event : clear implicits.
Arguments World : clear implicits.

(** ** A small instance

    Stand-ins for the functions of [tools] and for the answer generator, to run
    the interface on concrete sessions.  The index behind them maps a document
    name to its chunks, here one chunk holding the whole text; a file with no
    bytes cannot be parsed, so its ingestion reports failure and stores
    nothing. *)
Module Sample.

Definition Index : Type := list (string * list SourceChunk).

Definition process_pdf_document (f : UploadedFile.t) (_ _ _ : unit)
    (chunk_size chunk_overlap : Z) (index : Index) : (bool * Z) * Index :=
  match UploadedFile.getvalue f with
  | [] => ((false, 0), index)
  | data =>
      let chunk := {| source := (UploadedFile.name f ++ ", page 1")%string;
                      text := String.string_of_list_byte data |} in
      ((true, 1),
       (UploadedFile.name f, [chunk])
         :: List.filter (fun kv => negb (String.eqb (fst kv) (UploadedFile.name f))) index)
  end.

Definition retrieve_relevant_chunks (query : string) (_ _ _ : unit) (index : Index)
    : list SourceChunk * Index :=
  (concat (map snd index), index).

Definition generate_response (query : string) (chunks : list SourceChunk)
    (_ : unit) (llm_model : string) (index : Index) : string * Index :=
  (("Answer to: " ++ query)%string, index).

Definition highlight_matching_chunks (response : string) (chunks : list SourceChunk)
    (index : Index) : list SourceChunk * Index :=
  (chunks, index).

Definition get_pdf_download_link (name : string) (files : gmap string (list byte))
    (index : Index) : string * Index :=
  (("download:" ++ name)%string, index).

Definition sidebar (file_size_limit_mb : Q)
    : M (Chunk := SourceChunk) (Ext := Index) (option UploadedFile.t) :=
  create_sidebar process_pdf_document get_pdf_download_link
    tt tt tt 500 50 file_size_limit_mb.

Definition chat : M (Chunk := SourceChunk) (Ext := Index) unit :=
  create_chat_interface retrieve_relevant_chunks highlight_matching_chunks
    tt tt tt tt "llm" generate_response.

Definition world (s : SessionState) (files : gmap string (list byte)) (index : Index)
    (upload : option UploadedFile.t) (question : option string) : World Index :=
  {| session := s; fs := files; ext := index;
     widgets := {| file_uploader := upload; chat_input := question |} |}.

(** A session that has just started. *)
Definition fresh : SessionState := init_session_state new_session.

(** A session in which [report.pdf] was ingested before. *)
Definition report_chunk : SourceChunk :=
  {| source := "report.pdf, page 1"; text := "abc" |}.
Definition report_loaded : SessionState :=
  {| messages := []; document_loaded := true;
     document_name := Some "report.pdf"; highlighted_chunks := [] |}.
Definition report_index : Index := [("report.pdf", [report_chunk])].
Definition report_files : gmap string (list byte) :=
  {[ "report.pdf" := ["a"; "b"; "c"]%byte ]}.

(** A question typed before any document was uploaded, and one typed once
    [report.pdf] is loaded. *)
Definition early_question : World Index :=
  world fresh ∅ [] None (Some "What is the report about?").
Definition report_question : World Index :=
  world report_loaded report_files report_index None
    (Some "What is the report about?").

(** Uploads: a file with no bytes, a small file, a second version of
    [report.pdf], and a [report.pdf] of exactly one mebibyte. *)
Definition empty_pdf : UploadedFile.t := UploadedFile.mk "empty.pdf" 0 [].
Definition notes_pdf : UploadedFile.t :=
  UploadedFile.mk "notes.pdf" 4 ["n"; "o"; "t"; "e"]%byte.
Definition report_v2 : UploadedFile.t :=
  UploadedFile.mk "report.pdf" 5 ["a"; "b"; "c"; "d"; "e"]%byte.

Definition zeros (n : Z) : list byte := List.repeat "000"%byte (Z.to_nat n).
Definition one_mib_report : UploadedFile.t :=
  UploadedFile.mk "report.pdf" 1048576 (zeros 1048576).

(** Runs of the sidebar: the empty file and the small file in a new session,
    the second version of [report.pdf] and the one-mebibyte [report.pdf]
    with [report.pdf] loaded, the one-mebibyte file in a new session. *)
Definition empty_upload : World Index := world fresh ∅ [] (Some empty_pdf) None.
Definition first_upload : World Index := world fresh ∅ [] (Some notes_pdf) None.
Definition second_upload : World Index :=
  world report_loaded report_files report_index (Some report_v2) None.
Definition upload_at_limit_again : World Index :=
  world report_loaded report_files report_index (Some one_mib_report) None.
Definition upload_at_limit : World Index :=
  world fresh ∅ [] (Some one_mib_report) None.

End Sample.

(** ** Between runs *)

(** [st.session_state] as the next run of the script finds it: every key that
    [init_session_state] looks for is there. *)
Definition stored_session (s : SessionState) : RawSessionState :=
  {| raw_messages := Some (messages s);
     raw_document_loaded := Some (document_loaded s);
     raw_document_name := Some (document_name s);
     raw_highlighted_chunks := Some (highlighted_chunks s) |}.

(** A document marked loaded goes by a name, and a local file of that name is
    there. *)
Definition loaded_document_is_saved {Ext : Type} (w : World Ext) : Prop :=
  document_loaded (session w) = true ->
  exists name, document_name (session w) = Some name /\ is_Some (fs w !! name).

(** A conversation made of questions, each followed at once by its answer. *)
Fixpoint question_answer_pairs (l : list Message.t) : Prop :=
  match l with
  | [] => True
  | question :: rest =>
      match rest with
      | [] => False
      | answer :: rest' =>
          Message.role question = "user"
          /\ Message.highlighted_chunks question = None
          /\ Message.role answer = "assistant"
          /\ is_Some (Message.highlighted_chunks answer)
          /\ question_answer_pairs rest'
      end
  end.

(** ** More sample runs *)
Module Cases.

(** A file of two mebibytes, whole and well formed. *)
Definition two_mib_pdf : UploadedFile.t :=
  UploadedFile.mk "big.pdf" 2097152 (Sample.zeros 2097152).

(** It is uploaded while [report.pdf] is loaded. *)
Definition big_upload : World Sample.Index :=
  Sample.world Sample.report_loaded Sample.report_files Sample.report_index
    (Some two_mib_pdf) None.

(** [report.pdf] is loaded and the uploader is empty again; nothing is asked,
    or an empty string comes from the input. *)
Definition cleared_uploader : World Sample.Index :=
  Sample.world Sample.report_loaded Sample.report_files Sample.report_index None None.
Definition empty_question : World Sample.Index :=
  Sample.world Sample.report_loaded Sample.report_files Sample.report_index None (Some "").

(** An index whose matcher finds nothing: the instance of [Sample] with a
    [highlight_matching_chunks] that returns no chunk. *)
Definition highlight_nothing (response : string) (chunks : list SourceChunk)
    (index : Sample.Index) : list SourceChunk * Sample.Index :=
  ([], index).

Definition chat_without_matches : M (Chunk := SourceChunk) (Ext := Sample.Index) unit :=
  create_chat_interface Sample.retrieve_relevant_chunks highlight_nothing
    tt tt tt tt "llm" Sample.generate_response.

(** [report.pdf] is loaded, one question has been asked and answered, and a
    second question comes in. *)
Definition first_exchange : list Message.t :=
  [Message.mk "user" "What is the report about?" None;
   Message.mk "assistant" "Answer to: What is the report about?"
     (Some [Sample.report_chunk])].

Definition follow_up_question : World Sample.Index :=
  Sample.world
    {| messages := first_exchange; document_loaded := true;
       document_name := Some "report.pdf"; highlighted_chunks := [] |}
    Sample.report_files Sample.report_index None (Some "Who wrote it?").

End Cases.

(** * Properties *)

(** Settles membership of an event in an explicit trace, also once the
    membership has been computed down to [list_elem_of]. *)
Ltac split_membership H :=
  apply elem_of_cons in H; destruct H as [H|H];
  [try discriminate H; try (injection H as; subst) |].

Ltac find_member :=
  solve [repeat first [apply list_elem_of_here | apply list_elem_of_further]].

Ltac in_trace :=
  repeat match goal with
    | H : _ ∈ [] |- _ => apply elem_of_nil in H; contradiction
    | H : list_elem_of _ [] |- _ => apply elem_of_nil in H; contradiction
    | H : _ ∈ _ :: _ |- _ => split_membership H
    | H : list_elem_of _ (_ :: _) |- _ => split_membership H
    | |- _ ∈ _ => find_member
    | |- list_elem_of _ _ => find_member
    end.

(** ** Comparisons *)

Lemma Qgtb_true (a b : Q) : Qgtb a b = true <-> (b < a)%Q.
Proof.
  unfold Qgtb. rewrite negb_true_iff, <- not_true_iff_false, Qle_bool_iff.
  split; [apply Qnot_le_lt | apply Qlt_not_le].
Qed.

Lemma Qgtb_false (a b : Q) : Qgtb a b = false <-> (a <= b)%Q.
Proof. unfold Qgtb. rewrite negb_false_iff. apply Qle_bool_iff. Qed.

(** In whole bytes: a file is over a limit of [limit] megabytes when it has
    more than [limit * 1048576] bytes. *)
Lemma megabytes_over_limit (size limit : Z) :
  Qgtb (megabytes size) (inject_Z limit) = true <-> limit * 1048576 < size.
Proof.
  rewrite Qgtb_true. unfold megabytes, Qlt, Qdiv, Qmult, Qinv, inject_Z. simpl. lia.
Qed.

Lemma megabytes_at_limit (size limit : Z) :
  (megabytes size == inject_Z limit)%Q <-> size = limit * 1048576.
Proof.
  unfold megabytes, Qeq, Qdiv, Qmult, Qinv, inject_Z. simpl. lia.
Qed.

Lemma at_limit_not_over (size : Z) (limit : Q) :
  (megabytes size == limit)%Q -> Qgtb (megabytes size) limit = false.
Proof. intros H. apply Qgtb_false. rewrite H. apply Qle_refl. Qed.

Section Properties.

Context {Tokenizer EmbeddingModel PineconeIndex GroqClient Chunk Ext : Type}.

Variable process_pdf_document :
  UploadedFile.t -> Tokenizer -> EmbeddingModel -> PineconeIndex -> Z -> Z ->
  Ext -> (bool * Z) * Ext.
Variable retrieve_relevant_chunks :
  string -> PineconeIndex -> Tokenizer -> EmbeddingModel -> Ext -> list Chunk * Ext.
Variable highlight_matching_chunks :
  string -> list Chunk -> Ext -> list SourceChunk * Ext.
Variable get_pdf_download_link :
  string -> gmap string (list byte) -> Ext -> string * Ext.
Variable generate_response_func :
  string -> list Chunk -> GroqClient -> string -> Ext -> string * Ext.

Variables (groq_client : GroqClient) (tokenizer : Tokenizer)
          (embedding_model : EmbeddingModel) (pinecone_index : PineconeIndex)
          (llm_model : string) (chunk_size chunk_overlap : Z).

Local Abbreviation Step := (M (Chunk := Chunk) (Ext := Ext)).
Local Abbreviation past := (history (Chunk := Chunk)).

Local Abbreviation sidebar limit :=
  (create_sidebar (Chunk := Chunk) process_pdf_document get_pdf_download_link
     tokenizer embedding_model pinecone_index chunk_size chunk_overlap limit).

Local Abbreviation chat :=
  (create_chat_interface retrieve_relevant_chunks highlight_matching_chunks
     groq_client tokenizer embedding_model pinecone_index llm_model
     generate_response_func).

(** ** Steps that only render *)

Lemma renders_only_ret {A} (a : A) : renders_only (ret a : Step A).
Proof. intros w. split; reflexivity. Qed.

Lemma renders_only_emit (e : Event Chunk) :
  is_call e = false -> renders_only (emit e : Step unit).
Proof. intros He w. split; [reflexivity|]. unfold calls; simpl. now rewrite He. Qed.

Lemma renders_only_bind {A B} (m : Step A) (k : A -> Step B) :
  renders_only m -> (forall a, renders_only (k a)) -> renders_only (bind m k).
Proof.
  intros Hm Hk w. unfold bind.
  destruct (m w) as [[a w1] t1] eqn:Em.
  destruct (Hm w) as [Hw Ht]. rewrite Em in Hw, Ht.
  unfold world_of, trace_of in Hw, Ht; simpl in Hw, Ht. subst w1.
  destruct (k a w) as [[b w2] t2] eqn:Ek.
  destruct (Hk a w) as [Hw' Ht']. rewrite Ek in Hw', Ht'.
  unfold world_of, trace_of in *; simpl in *. split; [assumption|].
  unfold calls in *. now rewrite List.filter_app, Ht, Ht'.
Qed.

Lemma renders_only_within {A} (c : Container) (m : Step A) :
  renders_only m -> renders_only (within c m).
Proof.
  intros Hm. unfold within.
  apply renders_only_bind; [now apply renders_only_emit|]. intros _.
  apply renders_only_bind; [assumption|]. intros a.
  apply renders_only_bind; [now apply renders_only_emit|]. intros _.
  apply renders_only_ret.
Qed.

Lemma renders_only_for_each {A} (l : list A) (body : A -> Step unit) :
  (forall x, renders_only (body x)) -> renders_only (for_each l body).
Proof.
  intros Hb. induction l as [|x l IH]; simpl.
  - apply renders_only_ret.
  - apply renders_only_bind; [apply Hb | intros _; exact IH].
Qed.

Lemma renders_only_show_source_chunks (chunks : list SourceChunk) :
  renders_only (show_source_chunks chunks : Step unit).
Proof.
  unfold show_source_chunks. apply renders_only_within, renders_only_for_each.
  intros [i chunk].
  apply renders_only_bind; [now apply renders_only_emit|]. intros _.
  now apply renders_only_emit.
Qed.

Lemma renders_only_show_message (message : Message.t) :
  renders_only (show_message message : Step unit).
Proof.
  unfold show_message. apply renders_only_within.
  apply renders_only_bind; [now apply renders_only_emit|]. intros _.
  destruct (String.eqb _ _); [|apply renders_only_ret].
  destruct (Message.highlighted_chunks message) as [chunks|];
    [apply renders_only_show_source_chunks | apply renders_only_ret].
Qed.

Lemma history_run (w : World Ext) :
  for_each (messages (session w)) show_message w = (tt, w, past w)
  /\ calls (past w) = [].
Proof.
  destruct (renders_only_for_each (messages (session w)) show_message
              renders_only_show_message w) as [Hw Ht].
  unfold history. split; [|exact Ht].
  destruct (for_each _ _ w) as [[[] w1] t1].
  unfold world_of in Hw; simpl in Hw. now subst w1.
Qed.

(** ** The three ways through [create_chat_interface] *)

Ltac open_chat w :=
  unfold create_chat_interface;
  unfold bind at 1; unfold emit at 1;
  unfold bind at 1; unfold get_session at 1;
  unfold bind at 1;
  destruct (history_run w) as [-> Hpast];
  unfold bind at 1; unfold st_chat_input at 1.

(** No question was submitted ([st.chat_input] gave [None] or an empty
    string): the run lists the stored messages and stops. *)
Lemma chat_idle (w : World Ext) :
  match chat_input (widgets w) with
  | Some q => truthy_str q = false
  | None => True
  end ->
  chat w = (tt, w, StHeader AskQuestions :: past w ++ [StChatInput]).
Proof.
  intros Hq. open_chat w.
  destruct (chat_input (widgets w)) as [q|]; [rewrite Hq|]; reflexivity.
Qed.

(** A question with no document loaded: only the warning is rendered. *)
Lemma chat_not_loaded (w : World Ext) (q : string) :
  chat_input (widgets w) = Some q -> truthy_str q = true ->
  document_loaded (session w) = false ->
  chat w = (tt, w,
            StHeader AskQuestions :: past w ++
            [StChatInput; Enter (ChatMessage "assistant");
             StMarkdown PleaseUploadFirst false; Leave (ChatMessage "assistant")]).
Proof.
  intros Hq Ht Hl. open_chat w. rewrite Hq, Ht.
  unfold bind at 1; unfold get_session at 1. rewrite Hl. reflexivity.
Qed.

(** A question with a document loaded. *)
Lemma chat_loaded (w : World Ext) (q : string) :
  chat_input (widgets w) = Some q -> truthy_str q = true ->
  document_loaded (session w) = true ->
  let r1 := retrieve_relevant_chunks q pinecone_index tokenizer embedding_model (ext w) in
  let r2 := generate_response_func q (fst r1) groq_client llm_model (snd r1) in
  let r3 := highlight_matching_chunks (fst r2) (fst r1) (snd r2) in
  exists shown : list (Event Chunk),
    calls shown = [] /\
    chat w =
      (tt,
       {| session :=
            {| messages := messages (session w) ++
                 [Message.mk "user" q None;
                  Message.mk "assistant" (fst r2) (Some (fst r3))];
               document_loaded := document_loaded (session w);
               document_name := document_name (session w);
               highlighted_chunks := highlighted_chunks (session w) |};
          fs := fs w; ext := snd r3; widgets := widgets w |},
       StHeader AskQuestions :: past w ++
       [StChatInput;
        Enter (ChatMessage "user"); StMarkdown (Plain q) false;
        Leave (ChatMessage "user");
        Enter (ChatMessage "assistant"); Enter (Spinner "Thinking...");
        RetrieveRelevantChunks q (fst r1);
        GenerateResponse q (fst r1) (fst r2);
        StMarkdown (Plain (fst r2)) false;
        HighlightMatchingChunks (fst r2) (fst r1) (fst r3)] ++
       shown ++ [Leave (Spinner "Thinking..."); Leave (ChatMessage "assistant")]).
Proof.
  intros Hq Ht Hl r1 r2 r3. subst r1 r2 r3.
  destruct (retrieve_relevant_chunks q pinecone_index tokenizer embedding_model (ext w))
    as [chunks e1] eqn:E1; simpl.
  destruct (generate_response_func q chunks groq_client llm_model e1)
    as [response e2] eqn:E2; simpl.
  destruct (highlight_matching_chunks response chunks e2) as [hl e3] eqn:E3; simpl.
  set (w3 := {| session :=
                  {| messages := messages (session w) ++ [Message.mk "user" q None];
                     document_loaded := document_loaded (session w);
                     document_name := document_name (session w);
                     highlighted_chunks := highlighted_chunks (session w) |};
                fs := fs w; ext := e3; widgets := widgets w |}).
  assert (Hshown : exists shown : list (Event Chunk), calls shown = [] /\
            (if truthy_list hl then show_source_chunks hl else ret tt : Step unit) w3
            = (tt, w3, shown)).
  { assert (Hm : renders_only
              (if truthy_list hl then show_source_chunks hl else ret tt : Step unit)).
    { destruct (truthy_list hl);
        [apply renders_only_show_source_chunks | apply renders_only_ret]. }
    destruct (Hm w3) as [Hw3 Hc]. revert Hw3 Hc.
    generalize ((if truthy_list hl then show_source_chunks hl else ret tt : Step unit) w3).
    intros [[[] w4] t4] Hw3 Hc.
    exists t4. unfold world_of, trace_of in *; simpl in *. now subst w4. }
  destruct Hshown as (shown & Hc & Hrun). exists shown. split; [exact Hc|].
  open_chat w. rewrite Hq, Ht.
  unfold bind at 1; unfold get_session at 1. rewrite Hl. simpl negb. cbv iota.
  unfold append_message, within, call, emit, get_session, put_session, ret, bind in *.
  simpl. rewrite E1. simpl. rewrite E2. simpl. rewrite E3. simpl.
  fold w3. rewrite Hrun. subst w3. simpl.
  rewrite ?app_nil_r, <- ?app_assoc, ?Hl. reflexivity.
Qed.

Lemma chat_cases (w : World Ext) :
  match chat_input (widgets w) with
  | Some q => truthy_str q = false
  | None => True
  end \/
  exists q, chat_input (widgets w) = Some q /\ truthy_str q = true.
Proof.
  destruct (chat_input (widgets w)) as [q|]; [|now left].
  destruct (truthy_str q) eqn:Hq; [right; now exists q | now left].
Qed.

(** The chat interface changes nothing of the session but [messages], and
    writes no file. *)
Lemma chat_keeps_document (w : World Ext) :
  document_loaded (session (world_of (chat w))) = document_loaded (session w) /\
  document_name (session (world_of (chat w))) = document_name (session w) /\
  fs (world_of (chat w)) = fs w.
Proof.
  destruct (chat_cases w) as [Hidle | (q & Hq & Ht)].
  - now rewrite (chat_idle w Hidle).
  - destruct (document_loaded (session w)) eqn:Hl.
    + destruct (chat_loaded w q Hq Ht Hl) as (shown & _ & ->). simpl. auto.
    + now rewrite (chat_not_loaded w q Hq Ht Hl).
Qed.

Lemma no_calls_not_in (t : list (Event Chunk)) (e : Event Chunk) :
  calls t = [] -> is_call e = true -> e ∉ t.
Proof.
  intros Ht He Hin. apply list_elem_of_In in Hin.
  assert (Hf : In e (calls t)) by (apply List.filter_In; auto).
  rewrite Ht in Hf. exact Hf.
Qed.

Lemma calls_app (t1 t2 : list (Event Chunk)) : calls (t1 ++ t2) = calls t1 ++ calls t2.
Proof. apply List.filter_app. Qed.

Lemma calls_cons (e : Event Chunk) (t : list (Event Chunk)) :
  calls (e :: t) = if is_call e then e :: calls t else calls t.
Proof. reflexivity. Qed.

(** ** The chat interface *)

(** C3: a question submitted while [document_loaded] is [False] makes the
    run render the request to upload a document first, and nothing is called
    in that run: neither [retrieve_relevant_chunks] nor the answer generator.
    Whenever a run does call [retrieve_relevant_chunks], [document_loaded]
    was [True]. *)
Theorem question_without_document_is_refused (w : World Ext) (q : string) :
  chat_input (widgets w) = Some q -> truthy_str q = true ->
  document_loaded (session w) = false ->
  trace_of (chat w) =
    StHeader AskQuestions :: past w ++
    [StChatInput; Enter (ChatMessage "assistant");
     StMarkdown PleaseUploadFirst false; Leave (ChatMessage "assistant")]
  /\ calls (trace_of (chat w)) = []
  /\ (forall (w' : World Ext) (q' : string) (chunks : list Chunk),
        RetrieveRelevantChunks q' chunks ∈ trace_of (chat w') ->
        document_loaded (session w') = true).
Proof.
  intros Hq Ht Hl.
  assert (Hquiet : forall (v : World Ext) (p : string),
            chat_input (widgets v) = Some p -> truthy_str p = true ->
            document_loaded (session v) = false -> calls (trace_of (chat v)) = []).
  { intros v p Hp Htp Hlv. rewrite (chat_not_loaded v p Hp Htp Hlv).
    unfold trace_of; simpl snd. rewrite calls_cons, calls_app.
    now destruct (history_run v) as [_ ->]. }
  split; [now rewrite (chat_not_loaded w q Hq Ht Hl)|].
  split; [now apply (Hquiet w q)|].
  intros w' q' chunks Hin.
  destruct (document_loaded (session w')) eqn:Hl'; [reflexivity|]. exfalso.
  revert Hin. apply no_calls_not_in; [|reflexivity].
  destruct (chat_cases w') as [Hidle | (p & Hp & Htp)].
  - rewrite (chat_idle w' Hidle). unfold trace_of; simpl snd.
    rewrite calls_cons, calls_app. now destruct (history_run w') as [_ ->].
  - now apply (Hquiet w' p).
Qed.

(** C10: a question submitted while [document_loaded] is [False] leaves
    [st.session_state.messages] as it was: neither the question nor the
    warning is appended; after the input widget the run renders the warning
    and nothing else. *)
Theorem question_without_document_is_not_recorded (w : World Ext) (q : string) :
  chat_input (widgets w) = Some q -> truthy_str q = true ->
  document_loaded (session w) = false ->
  messages (session (world_of (chat w))) = messages (session w)
  /\ world_of (chat w) = w
  /\ exists before,
       trace_of (chat w) =
         before ++ StChatInput ::
           [Enter (ChatMessage "assistant");
            StMarkdown PleaseUploadFirst false; Leave (ChatMessage "assistant")].
Proof.
  intros Hq Ht Hl. rewrite (chat_not_loaded w q Hq Ht Hl).
  split; [reflexivity|]. split; [reflexivity|].
  exists (StHeader AskQuestions :: past w). reflexivity.
Qed.

(** C5: a question submitted while a document is loaded makes the run call,
    in this order and each once, [retrieve_relevant_chunks] on the query,
    [generate_response_func] on the query and the chunks retrieved, and
    [highlight_matching_chunks] on the response generated and the same
    chunks; the run makes no other call. *)
Theorem question_runs_the_pipeline_once_in_order (w : World Ext) (q : string) :
  chat_input (widgets w) = Some q -> truthy_str q = true ->
  document_loaded (session w) = true ->
  let r1 := retrieve_relevant_chunks q pinecone_index tokenizer embedding_model (ext w) in
  let r2 := generate_response_func q (fst r1) groq_client llm_model (snd r1) in
  let r3 := highlight_matching_chunks (fst r2) (fst r1) (snd r2) in
  calls (trace_of (chat w)) =
    [RetrieveRelevantChunks q (fst r1);
     GenerateResponse q (fst r1) (fst r2);
     HighlightMatchingChunks (fst r2) (fst r1) (fst r3)].
Proof.
  intros Hq Ht Hl r1 r2 r3.
  destruct (chat_loaded w q Hq Ht Hl) as (shown & Hshown & ->).
  fold r1 r2 r3. unfold trace_of; simpl snd.
  repeat first [rewrite calls_app | rewrite calls_cons; simpl is_call; cbv iota].
  rewrite Hshown. destruct (history_run w) as [_ ->]. reflexivity.
Qed.

(** C6: [create_chat_interface] only appends to
    [st.session_state.messages]: the messages there before the run are still
    there, in place and unchanged; each message appended has the role
    ["user"] or ["assistant"] and a content, and each assistant message
    appended carries [highlighted_chunks]. *)
Theorem messages_are_append_only (w : World Ext) :
  exists appended : list Message.t,
    messages (session (world_of (chat w))) = messages (session w) ++ appended
    /\ Forall stored_message_ok appended.
Proof.
  destruct (chat_cases w) as [Hidle | (q & Hq & Ht)].
  - exists []. rewrite (chat_idle w Hidle). simpl. now rewrite app_nil_r.
  - destruct (document_loaded (session w)) eqn:Hl.
    + destruct (chat_loaded w q Hq Ht Hl) as (shown & _ & ->). simpl.
      eexists. split; [reflexivity|].
      repeat constructor; simpl; eauto; discriminate.
    + exists []. rewrite (chat_not_loaded w q Hq Ht Hl). simpl.
      now rewrite app_nil_r.
Qed.

(** ** The ways through [create_sidebar] *)

(** Splits a statement about a run of [create_sidebar] with an upload into
    the ways the run can go: over the limit or not, a new name or not,
    loaded or not, ingestion succeeding or not, the local file there or
    not. *)
Ltac sidebar_paths w Hup :=
  unfold create_sidebar, within, download_link, set_document_loaded,
    set_document_name, st_file_uploader, get_session, put_session, emit, call,
    write_file, path_exists, bind, ret, value_of, world_of, trace_of in *;
  destruct w as [[msgs loaded docname hls] files e [upload question]];
  simpl in Hup; subst upload; simpl;
  repeat match goal with
    | |- context [Qgtb ?a ?b] => destruct (Qgtb a b) eqn:?; simpl
    | |- context [bool_decide ?P] => destruct (bool_decide_reflect P); simpl
    | |- context [negb ?b] => is_var b; destruct b; simpl
    | |- context [process_pdf_document ?f ?a ?b ?c ?d ?g ?x] =>
        let ok := fresh "ok" in
        destruct (process_pdf_document f a b c d g x) as [[ok ?] ?] eqn:?;
        destruct ok; simpl
    | |- context [get_pdf_download_link ?n ?fl ?x] =>
        destruct (get_pdf_download_link n fl x) eqn:?; simpl
    end.

Lemma sidebar_without_upload (limit : Q) (w : World Ext) :
  file_uploader (widgets w) = None ->
  sidebar limit w =
    (None, w, [Enter Sidebar; StHeader DocumentUpload; StFileUploader limit;
               StCaption limit; Leave Sidebar]).
Proof.
  intros Hup. unfold create_sidebar, within, st_file_uploader, emit, bind, ret.
  rewrite Hup. now destruct w.
Qed.

(** A run of [create_sidebar] calls [process_pdf_document] on the upload
    itself, if at all. *)
Lemma sidebar_ingests_the_upload (limit : Q) (w : World Ext) (f g : UploadedFile.t)
    (ok : bool) (n : Z) :
  file_uploader (widgets w) = Some f ->
  ProcessPdfDocument g ok n ∈ trace_of (sidebar limit w) -> g = f.
Proof.
  intros Hup. sidebar_paths w Hup; intros Hin; in_trace; reflexivity.
Qed.

(** The size error is shown exactly for a file over the limit. *)
Lemma size_error_iff (limit : Q) (w : World Ext) (f : UploadedFile.t) :
  file_uploader (widgets w) = Some f ->
  (exists a b, StError (FileTooLarge a b) ∈ trace_of (sidebar limit w))
  <-> (limit < megabytes (UploadedFile.size f))%Q.
Proof.
  intros Hup. rewrite <- Qgtb_true.
  sidebar_paths w Hup; (split; [intros (a & b & Hin); in_trace; try reflexivity
                               | intros Hgt; try discriminate Hgt;
                                 do 2 eexists; in_trace]).
Qed.

(** For a file within the limit, ingestion runs exactly when the document
    is not marked loaded or goes by another name. *)
Lemma within_limit_ingest_iff (limit : Q) (w : World Ext) (f : UploadedFile.t) :
  file_uploader (widgets w) = Some f ->
  (megabytes (UploadedFile.size f) <= limit)%Q ->
  (exists ok n, ProcessPdfDocument f ok n ∈ trace_of (sidebar limit w))
  <-> (document_loaded (session w) = false
       \/ document_name (session w) <> Some (UploadedFile.name f)).
Proof.
  intros Hup Hle. apply Qgtb_false in Hle. revert Hle.
  sidebar_paths w Hup; intros Hle; try discriminate Hle;
    (split; [intros (ok' & n' & Hin); in_trace; auto
            | intros [Hl|Hn]; try discriminate Hl; try contradiction;
              do 2 eexists; in_trace]).
Qed.

(** For a file over the limit the run shows the size error, resets the
    document, and goes on to call [process_pdf_document]: the test on
    [document_loaded] that follows the size check finds it [False]. *)
Lemma over_limit_upload_is_ingested (limit : Q) (w : World Ext) (f : UploadedFile.t) :
  file_uploader (widgets w) = Some f ->
  (limit < megabytes (UploadedFile.size f))%Q ->
  StError (FileTooLarge (megabytes (UploadedFile.size f)) limit)
    ∈ trace_of (sidebar limit w)
  /\ (exists ok n, ProcessPdfDocument f ok n ∈ trace_of (sidebar limit w))
  /\ document_name (session (world_of (sidebar limit w))) = None.
Proof.
  intros Hup Hgt. apply Qgtb_true in Hgt. revert Hgt.
  sidebar_paths w Hup; intros Hgt; try discriminate Hgt;
    (split; [in_trace|]); (split; [do 2 eexists; in_trace | reflexivity]).
Qed.

(** ** The sidebar *)

(** C1: when the call of [process_pdf_document] that a run of
    [create_sidebar] makes returns [success = False], [document_loaded] is
    [False] when [create_sidebar] returns, and still is once the chat
    interface has run; a file with no bytes whose ingestion fails is one such
    upload. *)
Theorem failed_ingestion_leaves_document_unloaded
    (limit : Q) (w : World Ext) (f : UploadedFile.t) (n : Z) :
  ProcessPdfDocument f false n ∈ trace_of (sidebar limit w) ->
  document_loaded (session (world_of (sidebar limit w))) = false
  /\ document_loaded (session (world_of (chat (world_of (sidebar limit w))))) = false.
Proof.
  intros Hin.
  assert (Hoff : document_loaded (session (world_of (sidebar limit w))) = false).
  { destruct (file_uploader (widgets w)) as [g|] eqn:Hup.
    - revert Hin. sidebar_paths w Hup; intros Hin; in_trace; reflexivity.
    - rewrite (sidebar_without_upload limit w Hup) in Hin.
      unfold trace_of in Hin; simpl in Hin. in_trace. }
  split; [exact Hoff|].
  destruct (chat_keeps_document (world_of (sidebar limit w))) as [-> _]. exact Hoff.
Qed.

(** C2, as the code has it: with [document_loaded] [True] and
    [document_name] the name of the upload, a file that is within the size
    limit is not ingested again: the session and the local files stay as
    they were, the document is reported as loaded, and the only call the run
    may make is the one for the download link.  For an upload within the
    limit, [process_pdf_document] is called exactly when the document is not
    marked loaded or the upload has another name than [document_name]. *)
Theorem same_name_upload_is_not_ingested_again
    (limit : Q) (w : World Ext) (f : UploadedFile.t) :
  file_uploader (widgets w) = Some f ->
  (megabytes (UploadedFile.size f) <= limit)%Q ->
  (document_loaded (session w) = true ->
   document_name (session w) = Some (UploadedFile.name f) ->
     session (world_of (sidebar limit w)) = session w
     /\ fs (world_of (sidebar limit w)) = fs w
     /\ StSuccess (LoadedAndReady (UploadedFile.name f)) ∈ trace_of (sidebar limit w)
     /\ (forall e, e ∈ calls (trace_of (sidebar limit w)) ->
           exists link, e = GetPdfDownloadLink (UploadedFile.name f) link))
  /\ ((exists ok n, ProcessPdfDocument f ok n ∈ trace_of (sidebar limit w))
      <-> (document_loaded (session w) = false
           \/ document_name (session w) <> Some (UploadedFile.name f))).
Proof.
  intros Hup Hle. split; [|now apply within_limit_ingest_iff].
  apply Qgtb_false in Hle. revert Hle.
  sidebar_paths w Hup; intros Hle Hl Hn; try discriminate; try contradiction;
    (split; [reflexivity|]); (split; [reflexivity|]); (split; [in_trace|]);
    unfold calls; simpl; intros ev Hev; in_trace; eauto.
Qed.

(** C4, on the code: with a limit of 10 MB and an upload of 11 MiB, whatever
    the session, the run shows the size error and then calls
    [process_pdf_document] on the file all the same. *)
Theorem oversized_upload_is_ingested_all_the_same
    (s : SessionState) (files : gmap string (list byte)) (e : Ext)
    (question : option string) (data : list byte) :
  let f := UploadedFile.mk "big.pdf" 11534336 data in
  let w := {| session := s; fs := files; ext := e;
              widgets := {| file_uploader := Some f; chat_input := question |} |} in
  exists ok n rest,
    trace_of (sidebar 10 w) =
      [Enter Sidebar; StHeader DocumentUpload; StFileUploader 10; StCaption 10;
       StError (FileTooLarge (megabytes 11534336) 10);
       Enter (Spinner "Processing document...");
       ProcessPdfDocument f ok n] ++ rest.
Proof.
  intros f w.
  unfold create_sidebar, within, download_link, set_document_loaded,
    set_document_name, st_file_uploader, get_session, put_session, emit, call,
    write_file, path_exists, bind, ret, trace_of. simpl.
  destruct (process_pdf_document f _ _ _ _ _ e) as [[ok n] e1]. simpl.
  exists ok, n. destruct ok; simpl.
  - destruct (get_pdf_download_link _ _ _). simpl. eexists. reflexivity.
  - eexists. reflexivity.
Qed.

(** C7: in a run of [create_sidebar] with an upload,
    [process_pdf_document] returns [success = True] exactly when the run
    writes the uploaded bytes to the local file named as the upload and
    renders a download link for that name; the file then holds those bytes.
    When [process_pdf_document] returns [success = False] the run writes no
    file and the local files are as before.

    The run is pinned down event by event.  On success: the spinner, the call,
    the success notice, the write, then the call of [get_pdf_download_link] on
    the name, made with the file already written, and the rendering of the
    very link it returned.  On failure: the spinner, the call, the error.
    Without a call of [process_pdf_document] nothing is written either. *)
Theorem upload_is_saved_exactly_on_success
    (limit : Q) (w : World Ext) (f : UploadedFile.t) :
  file_uploader (widgets w) = Some f ->
  let ingested :=
    process_pdf_document f tokenizer embedding_model pinecone_index
      chunk_size chunk_overlap (ext w) in
  let saved := <[UploadedFile.name f := UploadedFile.getvalue f]> (fs w) in
  let linked := get_pdf_download_link (UploadedFile.name f) saved (snd ingested) in
  let before : list (Event Chunk) :=
    [Enter Sidebar; StHeader DocumentUpload; StFileUploader limit; StCaption limit]
    ++ (if Qgtb (megabytes (UploadedFile.size f)) limit
        then [StError (FileTooLarge (megabytes (UploadedFile.size f)) limit)]
        else []) in
  ((exists n, ProcessPdfDocument f true n ∈ trace_of (sidebar limit w))
   <-> (WriteFile (UploadedFile.name f) (UploadedFile.getvalue f)
          ∈ trace_of (sidebar limit w)
        /\ exists link,
             GetPdfDownloadLink (UploadedFile.name f) link ∈ trace_of (sidebar limit w)
             /\ StMarkdown (Plain link) true ∈ trace_of (sidebar limit w)))
  /\ ((exists n, ProcessPdfDocument f true n ∈ trace_of (sidebar limit w)) ->
      fs (world_of (sidebar limit w)) = saved)
  /\ ((exists n, ProcessPdfDocument f false n ∈ trace_of (sidebar limit w)) ->
      fs (world_of (sidebar limit w)) = fs w
      /\ forall name data, WriteFile name data ∉ trace_of (sidebar limit w))
  /\ (forall n, ProcessPdfDocument f true n ∈ trace_of (sidebar limit w) ->
      fst ingested = (true, n)
      /\ trace_of (sidebar limit w) =
           before ++
           [Enter (Spinner "Processing document...");
            ProcessPdfDocument f true n;
            StSuccess (Processed (UploadedFile.name f) n);
            WriteFile (UploadedFile.name f) (UploadedFile.getvalue f);
            GetPdfDownloadLink (UploadedFile.name f) (fst linked);
            StMarkdown (Plain (fst linked)) true;
            Leave (Spinner "Processing document..."); Leave Sidebar]
      /\ ext (world_of (sidebar limit w)) = snd linked)
  /\ (forall n, ProcessPdfDocument f false n ∈ trace_of (sidebar limit w) ->
      fst ingested = (false, n)
      /\ trace_of (sidebar limit w) =
           before ++
           [Enter (Spinner "Processing document...");
            ProcessPdfDocument f false n;
            StError FailedToProcess;
            Leave (Spinner "Processing document..."); Leave Sidebar]
      /\ ext (world_of (sidebar limit w)) = snd ingested)
  /\ ((forall ok n, ProcessPdfDocument f ok n ∉ trace_of (sidebar limit w)) ->
      fs (world_of (sidebar limit w)) = fs w
      /\ forall name data, WriteFile name data ∉ trace_of (sidebar limit w)).
Proof.
  intros Hup ingested saved linked before. subst ingested saved linked before.
  sidebar_paths w Hup.
  all: split;
    [split; [intros (n' & Hin); in_trace;
             (split; [find_member | eexists; split; find_member])
            | intros (Hw & _); in_trace; eexists; find_member] |].
  all: split; [intros (n' & Hin); in_trace; reflexivity |].
  all: split;
    [intros (n' & Hin); in_trace;
     (split; [reflexivity | intros nm d Hw; in_trace]) |].
  all: split; [intros n' Hin; in_trace; repeat split; reflexivity |].
  all: split; [intros n' Hin; in_trace; repeat split; reflexivity |].
  all: intros Hnone;
    try (exfalso; eapply Hnone; find_member);
    (split; [reflexivity | intros nm d Hw; in_trace]).
Qed.

(** C8, on the code: with [old.pdf] loaded, a limit of 10 MB and an upload
    of 11 MiB, [document_name] is [None] when [create_sidebar] returns, and
    [document_loaded] is whatever [process_pdf_document] answered for the
    oversized file: [True] when that ingestion succeeded, and a question asked
    in the same run then goes to [retrieve_relevant_chunks]. *)
Theorem oversized_upload_ends_as_its_ingestion_went
    (msgs : list Message.t) (hls : list SourceChunk)
    (files : gmap string (list byte)) (e : Ext)
    (question : option string) (data : list byte) :
  let f := UploadedFile.mk "big.pdf" 11534336 data in
  let w := {| session := {| messages := msgs; document_loaded := true;
                            document_name := Some "old.pdf";
                            highlighted_chunks := hls |};
              fs := files; ext := e;
              widgets := {| file_uploader := Some f; chat_input := question |} |} in
  let ingested := process_pdf_document f tokenizer embedding_model pinecone_index
                    chunk_size chunk_overlap e in
  document_name (session (world_of (sidebar 10 w))) = None
  /\ document_loaded (session (world_of (sidebar 10 w))) = fst (fst ingested)
  /\ (forall q, question = Some q -> truthy_str q = true ->
       fst (fst ingested) = true ->
       exists chunks,
         RetrieveRelevantChunks q chunks ∈ trace_of (chat (world_of (sidebar 10 w)))).
Proof.
  intros f w ingested.
  assert (Hrun : document_name (session (world_of (sidebar 10 w))) = None
                 /\ document_loaded (session (world_of (sidebar 10 w)))
                    = fst (fst ingested)
                 /\ chat_input (widgets (world_of (sidebar 10 w))) = question).
  { subst ingested.
    unfold create_sidebar, within, download_link, set_document_loaded,
      set_document_name, st_file_uploader, get_session, put_session, emit, call,
      write_file, path_exists, bind, ret, world_of. simpl.
    destruct (process_pdf_document f _ _ _ _ _ e) as [[ok n] e1]. simpl.
    destruct ok; simpl; [destruct (get_pdf_download_link _ _ _); simpl|];
      repeat split; reflexivity. }
  destruct Hrun as (Hname & Hloaded & Hinput).
  split; [exact Hname|]. split; [exact Hloaded|].
  intros q Hq Ht Hok. rewrite Hok in Hloaded. rewrite Hq in Hinput.
  destruct (chat_loaded (world_of (sidebar 10 w)) q Hinput Ht Hloaded)
    as (shown & _ & ->).
  eexists. unfold trace_of; simpl snd.
  apply list_elem_of_further, elem_of_app. right. in_trace.
Qed.

(** C9, as the code has it: a file whose size in megabytes equals the limit
    gets no size error and its name becomes (or stays) [document_name]; it
    is passed to [process_pdf_document] unless a document of that name is
    already marked loaded.  The size error is shown exactly for sizes
    strictly over the limit. *)
Theorem file_at_the_limit_is_accepted
    (limit : Q) (w : World Ext) (f : UploadedFile.t) :
  file_uploader (widgets w) = Some f ->
  (megabytes (UploadedFile.size f) == limit)%Q ->
  (forall a b, StError (FileTooLarge a b) ∉ trace_of (sidebar limit w))
  /\ document_name (session (world_of (sidebar limit w))) = Some (UploadedFile.name f)
  /\ ((exists ok n, ProcessPdfDocument f ok n ∈ trace_of (sidebar limit w))
      <-> (document_loaded (session w) = false
           \/ document_name (session w) <> Some (UploadedFile.name f)))
  /\ (forall (w' : World Ext) (g : UploadedFile.t),
        file_uploader (widgets w') = Some g ->
        (exists a b, StError (FileTooLarge a b) ∈ trace_of (sidebar limit w'))
        <-> (limit < megabytes (UploadedFile.size g))%Q).
Proof.
  intros Hup Heq.
  assert (Hle : (megabytes (UploadedFile.size f) <= limit)%Q)
    by (rewrite Heq; apply Qle_refl).
  split.
  { intros a b Hin.
    assert (Hgt : (limit < megabytes (UploadedFile.size f))%Q)
      by (apply (size_error_iff limit w f Hup); eauto).
    apply Qlt_not_le in Hgt. contradiction. }
  split.
  { apply Qgtb_false in Hle. revert Hle.
    sidebar_paths w Hup; intros Hle; try discriminate Hle; try reflexivity;
      apply dec_stable; assumption. }
  split; [now apply within_limit_ingest_iff|].
  intros w' g Hg. now apply size_error_iff.
Qed.

(** ** More on the sidebar *)

(** What [create_sidebar] leaves alone, whatever the upload. *)
Lemma sidebar_frame (limit : Q) (w : World Ext) :
  messages (session (world_of (sidebar limit w))) = messages (session w)
  /\ highlighted_chunks (session (world_of (sidebar limit w)))
     = highlighted_chunks (session w)
  /\ widgets (world_of (sidebar limit w)) = widgets w
  /\ value_of (sidebar limit w) = file_uploader (widgets w).
Proof.
  destruct (file_uploader (widgets w)) as [f|] eqn:Hup.
  - sidebar_paths w Hup; repeat split; reflexivity.
  - now rewrite (sidebar_without_upload limit w Hup).
Qed.

(** With nothing marked loaded, an upload of any size is ingested. *)
Lemma unloaded_upload_is_ingested (limit : Q) (w : World Ext) (f : UploadedFile.t) :
  file_uploader (widgets w) = Some f ->
  document_loaded (session w) = false ->
  exists ok n, ProcessPdfDocument f ok n ∈ trace_of (sidebar limit w).
Proof.
  intros Hup. sidebar_paths w Hup; intros Hl; try discriminate Hl;
    do 2 eexists; in_trace.
Qed.

(** The state a run leaves when its ingestion succeeded, and when it failed. *)
Lemma successful_ingestion_state (limit : Q) (w : World Ext) (f : UploadedFile.t) (n : Z) :
  file_uploader (widgets w) = Some f ->
  ProcessPdfDocument f true n ∈ trace_of (sidebar limit w) ->
  document_loaded (session (world_of (sidebar limit w))) = true
  /\ fs (world_of (sidebar limit w)) !! UploadedFile.name f
     = Some (UploadedFile.getvalue f)
  /\ document_name (session (world_of (sidebar limit w)))
     = if Qgtb (megabytes (UploadedFile.size f)) limit
       then None else Some (UploadedFile.name f).
Proof.
  intros Hup. sidebar_paths w Hup; intros Hin; in_trace;
    repeat split; try reflexivity; try (apply dec_stable; assumption);
    apply lookup_insert_eq.
Qed.

Lemma failed_ingestion_state (limit : Q) (w : World Ext) (f : UploadedFile.t) (n : Z) :
  file_uploader (widgets w) = Some f ->
  ProcessPdfDocument f false n ∈ trace_of (sidebar limit w) ->
  document_loaded (session (world_of (sidebar limit w))) = false.
Proof.
  intros Hup. sidebar_paths w Hup; intros Hin; in_trace; reflexivity.
Qed.

(** The run for a document that is loaded, within the limit, and saved. *)
Lemma sidebar_loaded_and_ready (limit : Q) (w : World Ext) (f : UploadedFile.t) :
  file_uploader (widgets w) = Some f ->
  (megabytes (UploadedFile.size f) <= limit)%Q ->
  document_loaded (session w) = true ->
  document_name (session w) = Some (UploadedFile.name f) ->
  is_Some (fs w !! UploadedFile.name f) ->
  session (world_of (sidebar limit w)) = session w
  /\ fs (world_of (sidebar limit w)) = fs w
  /\ exists link,
       trace_of (sidebar limit w) =
         [Enter Sidebar; StHeader DocumentUpload; StFileUploader limit;
          StCaption limit; StSuccess (LoadedAndReady (UploadedFile.name f));
          PathExists (UploadedFile.name f) true;
          GetPdfDownloadLink (UploadedFile.name f) link;
          StMarkdown (Plain link) true; Leave Sidebar].
Proof.
  intros Hup Hle. apply Qgtb_false in Hle. revert Hle.
  sidebar_paths w Hup; intros Hle Hl Hn Hfile;
    try discriminate; try contradiction;
    repeat split; try reflexivity; eexists; reflexivity.
Qed.

(** X1: with no file in the uploader [create_sidebar] returns [None], calls
    nothing and changes nothing: a document that was loaded stays loaded under
    its name, and the local files stay. *)
Theorem empty_uploader_changes_nothing (limit : Q) (w : World Ext) :
  file_uploader (widgets w) = None ->
  value_of (sidebar limit w) = None
  /\ world_of (sidebar limit w) = w
  /\ calls (trace_of (sidebar limit w)) = []
  /\ trace_of (sidebar limit w) =
       [Enter Sidebar; StHeader DocumentUpload; StFileUploader limit;
        StCaption limit; Leave Sidebar].
Proof.
  intros Hup. rewrite (sidebar_without_upload limit w Hup). repeat split.
Qed.

(** X2: with a limit of a whole number of megabytes, the size error is shown
    exactly when the upload has more than [limit * 1048576] bytes; a file of
    exactly that many bytes gets none. *)
Theorem size_error_in_bytes (limit : Z) (w : World Ext) (f : UploadedFile.t) :
  file_uploader (widgets w) = Some f ->
  (exists a b, StError (FileTooLarge a b) ∈ trace_of (sidebar (inject_Z limit) w))
  <-> limit * 1048576 < UploadedFile.size f.
Proof.
  intros Hup. rewrite (size_error_iff (inject_Z limit) w f Hup).
  rewrite <- Qgtb_true. apply megabytes_over_limit.
Qed.

(** X3: [create_sidebar] never touches the conversation: the messages and
    the [highlighted_chunks] key are as before, also when another document is
    uploaded; and it returns what the uploader holds. *)
Theorem sidebar_keeps_the_conversation (limit : Q) (w : World Ext) :
  messages (session (world_of (sidebar limit w))) = messages (session w)
  /\ highlighted_chunks (session (world_of (sidebar limit w)))
     = highlighted_chunks (session w)
  /\ value_of (sidebar limit w) = file_uploader (widgets w).
Proof.
  destruct (sidebar_frame limit w) as (Hm & Hh & _ & Hv). auto.
Qed.

(** X4: after a run with an upload, [document_loaded] is [True] exactly when
    the document was already loaded under the upload's name and the file is
    within the limit, or [process_pdf_document] returned success in this run;
    [document_name] is the upload's name for a file within the limit and
    [None] for one over it. *)
Theorem document_is_loaded_when_kept_or_ingested
    (limit : Q) (w : World Ext) (f : UploadedFile.t) :
  file_uploader (widgets w) = Some f ->
  (document_loaded (session (world_of (sidebar limit w))) = true
   <-> (Qgtb (megabytes (UploadedFile.size f)) limit = false
        /\ document_loaded (session w) = true
        /\ document_name (session w) = Some (UploadedFile.name f))
       \/ exists n, ProcessPdfDocument f true n ∈ trace_of (sidebar limit w))
  /\ document_name (session (world_of (sidebar limit w)))
     = if Qgtb (megabytes (UploadedFile.size f)) limit
       then None else Some (UploadedFile.name f).
Proof.
  intros Hup.
  sidebar_paths w Hup;
    (split; [| first [reflexivity | apply dec_stable; assumption]]);
    (split;
     [ intros Hl; try discriminate Hl;
       first [ right; eexists; find_member
             | left; repeat split; first [reflexivity | apply dec_stable; assumption] ]
     | intros [(Hs & Hl & Hn) | (n' & Hin)];
       try discriminate; try contradiction; in_trace; reflexivity ]).
Qed.

(** X5: [create_sidebar] removes no local file and changes none but the one
    named as the upload; after a successful ingestion that file holds the
    uploaded bytes. *)
Theorem sidebar_writes_only_the_upload (limit : Q) (w : World Ext) :
  (forall name, is_Some (fs w !! name) ->
                is_Some (fs (world_of (sidebar limit w)) !! name))
  /\ (forall f name, file_uploader (widgets w) = Some f ->
        UploadedFile.name f <> name ->
        fs (world_of (sidebar limit w)) !! name = fs w !! name)
  /\ (file_uploader (widgets w) = None -> fs (world_of (sidebar limit w)) = fs w)
  /\ (forall f n, file_uploader (widgets w) = Some f ->
        ProcessPdfDocument f true n ∈ trace_of (sidebar limit w) ->
        fs (world_of (sidebar limit w)) !! UploadedFile.name f
        = Some (UploadedFile.getvalue f)).
Proof.
  split; [|split; [|split]].
  - intros name. destruct (file_uploader (widgets w)) as [f|] eqn:Hup.
    + sidebar_paths w Hup; intros Hfile; try assumption;
        rewrite lookup_insert; case_decide; eauto.
    + now rewrite (sidebar_without_upload limit w Hup).
  - intros f name Hup.
    sidebar_paths w Hup; intros Hother; try reflexivity;
      now apply lookup_insert_ne.
  - intros Hup. now rewrite (sidebar_without_upload limit w Hup).
  - intros f n Hup Hin. now apply (successful_ingestion_state limit w f n).
Qed.

(** X6: an upload within the limit that has been ingested with success is
    not ingested again by the next run with the same file in the uploader:
    that run leaves the session and the local files as they are, reports the
    document as loaded, finds the file it saved and renders its download
    link. *)
Theorem ingested_upload_is_only_reported_on_rerun
    (limit : Q) (w : World Ext) (f : UploadedFile.t) (n : Z) :
  file_uploader (widgets w) = Some f ->
  (megabytes (UploadedFile.size f) <= limit)%Q ->
  ProcessPdfDocument f true n ∈ trace_of (sidebar limit w) ->
  let w1 := world_of (sidebar limit w) in
  session (world_of (sidebar limit w1)) = session w1
  /\ fs (world_of (sidebar limit w1)) = fs w1
  /\ (forall g ok m, ProcessPdfDocument g ok m ∉ trace_of (sidebar limit w1))
  /\ exists link,
       trace_of (sidebar limit w1) =
         [Enter Sidebar; StHeader DocumentUpload; StFileUploader limit;
          StCaption limit; StSuccess (LoadedAndReady (UploadedFile.name f));
          PathExists (UploadedFile.name f) true;
          GetPdfDownloadLink (UploadedFile.name f) link;
          StMarkdown (Plain link) true; Leave Sidebar].
Proof.
  intros Hup Hle Hin w1.
  destruct (successful_ingestion_state limit w f n Hup Hin) as (Hl & Hfile & Hn).
  rewrite (proj2 (Qgtb_false _ _) Hle) in Hn.
  destruct (sidebar_frame limit w) as (_ & _ & Hw & _).
  assert (Hup1 : file_uploader (widgets w1) = Some f)
    by (subst w1; now rewrite Hw).
  destruct (sidebar_loaded_and_ready limit w1 f Hup1 Hle Hl Hn)
    as (Hs & Hfs & link & Ht); [subst w1; rewrite Hfile; eauto|].
  split; [exact Hs|]. split; [exact Hfs|].
  split; [|now exists link].
  intros g ok m Hg. rewrite Ht in Hg. in_trace.
Qed.

(** How every run with a file over the limit begins: the size error comes
    first, then the spinner and the call of [process_pdf_document] on the
    file, with what the call returned. *)
Lemma over_limit_run_begins (limit : Q) (w : World Ext) (f : UploadedFile.t) :
  file_uploader (widgets w) = Some f ->
  (limit < megabytes (UploadedFile.size f))%Q ->
  exists rest,
    trace_of (sidebar limit w) =
      [Enter Sidebar; StHeader DocumentUpload; StFileUploader limit; StCaption limit;
       StError (FileTooLarge (megabytes (UploadedFile.size f)) limit);
       Enter (Spinner "Processing document...");
       ProcessPdfDocument f
         (fst (fst (process_pdf_document f tokenizer embedding_model pinecone_index
                      chunk_size chunk_overlap (ext w))))
         (snd (fst (process_pdf_document f tokenizer embedding_model pinecone_index
                      chunk_size chunk_overlap (ext w))))]
      ++ rest.
Proof.
  intros Hup Hgt. apply Qgtb_true in Hgt. revert Hgt.
  sidebar_paths w Hup; intros Hgt; try discriminate Hgt; eexists; reflexivity.
Qed.

(** X7: a file over the limit is handed to [process_pdf_document] by every
    run that finds it in the uploader, the first and the one after it, each
    time after the size error: each of the two runs begins with the header,
    the uploader, the caption, then the size error, then the spinner and the
    call on the file, made on what the services hold when that run starts. *)
Theorem over_limit_upload_is_ingested_by_every_run
    (limit : Q) (w : World Ext) (f : UploadedFile.t) :
  file_uploader (widgets w) = Some f ->
  (limit < megabytes (UploadedFile.size f))%Q ->
  let w1 := world_of (sidebar limit w) in
  let ingested (v : World Ext) :=
    fst (process_pdf_document f tokenizer embedding_model pinecone_index
           chunk_size chunk_overlap (ext v)) in
  let beginning (v : World Ext) : list (Event Chunk) :=
    [Enter Sidebar; StHeader DocumentUpload; StFileUploader limit; StCaption limit;
     StError (FileTooLarge (megabytes (UploadedFile.size f)) limit);
     Enter (Spinner "Processing document...");
     ProcessPdfDocument f (fst (ingested v)) (snd (ingested v))] in
  (exists rest, trace_of (sidebar limit w) = beginning w ++ rest)
  /\ (exists rest, trace_of (sidebar limit w1) = beginning w1 ++ rest)
  /\ file_uploader (widgets w1) = Some f.
Proof.
  intros Hup Hgt w1 ingested beginning. subst ingested beginning.
  destruct (sidebar_frame limit w) as (_ & _ & Hw & _).
  assert (Hup1 : file_uploader (widgets w1) = Some f)
    by (subst w1; now rewrite Hw).
  split; [exact (over_limit_run_begins limit w f Hup Hgt)|].
  split; [exact (over_limit_run_begins limit w1 f Hup1 Hgt) | exact Hup1].
Qed.

(** X8: an ingestion that failed is tried again by the next run that finds
    the same file in the uploader. *)
Theorem failed_ingestion_is_retried_on_rerun
    (limit : Q) (w : World Ext) (f : UploadedFile.t) (n : Z) :
  file_uploader (widgets w) = Some f ->
  ProcessPdfDocument f false n ∈ trace_of (sidebar limit w) ->
  exists ok n',
    ProcessPdfDocument f ok n'
      ∈ trace_of (sidebar limit (world_of (sidebar limit w))).
Proof.
  intros Hup Hin.
  destruct (sidebar_frame limit w) as (_ & _ & Hw & _).
  apply unloaded_upload_is_ingested.
  - now rewrite Hw.
  - now apply (failed_ingestion_state limit w f n).
Qed.

(** X9: as long as uploads are within the limit, a document marked loaded
    has a name and a saved file of that name: [create_sidebar] keeps this, and
    so does [create_chat_interface], alone or after the sidebar. *)
Theorem loaded_document_stays_saved (limit : Q) (w : World Ext) :
  loaded_document_is_saved w ->
  (forall f, file_uploader (widgets w) = Some f ->
             (megabytes (UploadedFile.size f) <= limit)%Q) ->
  loaded_document_is_saved (world_of (sidebar limit w))
  /\ loaded_document_is_saved (world_of (chat w))
  /\ loaded_document_is_saved (world_of (chat (world_of (sidebar limit w)))).
Proof.
  intros Hinv Hle.
  assert (Hchat : forall v : World Ext,
            loaded_document_is_saved v -> loaded_document_is_saved (world_of (chat v))).
  { intros v Hv. unfold loaded_document_is_saved in *.
    destruct (chat_keeps_document v) as (-> & -> & ->). exact Hv. }
  assert (Hside : loaded_document_is_saved (world_of (sidebar limit w))).
  { destruct (file_uploader (widgets w)) as [f|] eqn:Hup.
    - specialize (Hle f eq_refl). apply Qgtb_false in Hle.
      unfold loaded_document_is_saved in *. revert Hle Hinv.
      sidebar_paths w Hup; intros Hle Hinv Hl;
        try discriminate; try (now apply Hinv);
        exists (UploadedFile.name f);
        (split; [first [reflexivity | apply dec_stable; assumption]|]);
        rewrite lookup_insert_eq; eauto.
    - now rewrite (sidebar_without_upload limit w Hup). }
  auto.
Qed.

(** ** More on the chat interface *)

(** The loop over the chunks, index function left open for the induction. *)
Lemma for_each_chunk_run (h : nat -> nat) (chunks : list SourceChunk) (w : World Ext) :
  for_each (imap (fun i chunk => (h i, chunk)) chunks)
    (fun '(i, chunk) =>
       bind (emit (StMarkdown (SourceChunkTitle (i + 1)%nat (source chunk)) false))
            (fun _ => emit (StText (text chunk)))) w
  = (tt, w,
     concat (imap (fun i chunk =>
                     [StMarkdown (SourceChunkTitle (h i + 1)%nat (source chunk)) false;
                      StText (text chunk) : Event Chunk]) chunks)).
Proof.
  revert h. induction chunks as [|chunk chunks IH]; intros h; [reflexivity|].
  simpl. unfold bind at 1. unfold bind at 1. unfold emit at 1 2. simpl.
  change (imap ((fun i c => (h i, c)) ∘ S) chunks)
    with (imap (fun i c => (h (S i), c)) chunks).
  rewrite (IH (fun i => h (S i))). reflexivity.
Qed.

Lemma show_source_chunks_run (chunks : list SourceChunk) (w : World Ext) :
  show_source_chunks chunks w
  = (tt, w,
     Enter (Expander "View Source Chunks")
     :: concat (imap (fun i chunk =>
                        [StMarkdown (SourceChunkTitle (i + 1)%nat (source chunk)) false;
                         StText (text chunk) : Event Chunk]) chunks)
     ++ [Leave (Expander "View Source Chunks")]).
Proof.
  unfold show_source_chunks, within, enumerate.
  unfold bind at 1; unfold emit at 1. unfold bind at 1.
  change (imap pair chunks) with (imap (fun i c => (id i, c)) chunks).
  rewrite (for_each_chunk_run id chunks w).
  unfold bind, emit, ret. simpl. rewrite ?app_nil_r. reflexivity.
Qed.

(** What a stored message shows does not depend on the world. *)
Lemma show_message_same (message : Message.t) (w1 w2 : World Ext) :
  trace_of (show_message (Chunk := Chunk) message w1)
  = trace_of (show_message (Chunk := Chunk) message w2).
Proof.
  unfold show_message, within, bind, emit, ret, trace_of.
  destruct (String.eqb _ _); [|reflexivity].
  destruct (Message.highlighted_chunks message) as [chunks|]; [|reflexivity].
  now rewrite !show_source_chunks_run.
Qed.

Lemma stored_messages_run (l : list Message.t) (w : World Ext) :
  for_each l (show_message (Chunk := Chunk)) w
  = (tt, w, concat (map (fun m => trace_of (show_message (Chunk := Chunk) m w)) l)).
Proof.
  induction l as [|m l IH]; [reflexivity|].
  simpl. unfold bind.
  destruct (renders_only_show_message m w) as [Hw _].
  destruct (show_message m w) as [[[] w1] t1]. unfold world_of in Hw; simpl in Hw.
  subst w1. now rewrite IH.
Qed.

Lemma stored_messages_same (l : list Message.t) (w1 w2 : World Ext) :
  trace_of (for_each l (show_message (Chunk := Chunk)) w1)
  = trace_of (for_each l (show_message (Chunk := Chunk)) w2).
Proof.
  rewrite !stored_messages_run. unfold trace_of; simpl. f_equal.
  apply map_ext. intros m. apply show_message_same.
Qed.

(** The run for a question with a document loaded, all of it explicit. *)
Lemma chat_loaded_run (w : World Ext) (q : string) :
  chat_input (widgets w) = Some q -> truthy_str q = true ->
  document_loaded (session w) = true ->
  let r1 := retrieve_relevant_chunks q pinecone_index tokenizer embedding_model (ext w) in
  let r2 := generate_response_func q (fst r1) groq_client llm_model (snd r1) in
  let r3 := highlight_matching_chunks (fst r2) (fst r1) (snd r2) in
  chat w =
    (tt,
     {| session :=
          {| messages := messages (session w) ++
               [Message.mk "user" q None;
                Message.mk "assistant" (fst r2) (Some (fst r3))];
             document_loaded := document_loaded (session w);
             document_name := document_name (session w);
             highlighted_chunks := highlighted_chunks (session w) |};
        fs := fs w; ext := snd r3; widgets := widgets w |},
     StHeader AskQuestions :: past w ++
     [StChatInput;
      Enter (ChatMessage "user"); StMarkdown (Plain q) false;
      Leave (ChatMessage "user");
      Enter (ChatMessage "assistant"); Enter (Spinner "Thinking...");
      RetrieveRelevantChunks q (fst r1);
      GenerateResponse q (fst r1) (fst r2);
      StMarkdown (Plain (fst r2)) false;
      HighlightMatchingChunks (fst r2) (fst r1) (fst r3)] ++
     (if truthy_list (fst r3)
      then Enter (Expander "View Source Chunks")
           :: concat (imap (fun i chunk =>
                              [StMarkdown (SourceChunkTitle (i + 1)%nat (source chunk))
                                 false;
                               StText (text chunk)]) (fst r3))
           ++ [Leave (Expander "View Source Chunks")]
      else []) ++
     [Leave (Spinner "Thinking..."); Leave (ChatMessage "assistant")]).
Proof.
  intros Hq Ht Hl r1 r2 r3. subst r1 r2 r3.
  destruct (retrieve_relevant_chunks q pinecone_index tokenizer embedding_model (ext w))
    as [chunks e1] eqn:E1; simpl.
  destruct (generate_response_func q chunks groq_client llm_model e1)
    as [response e2] eqn:E2; simpl.
  destruct (highlight_matching_chunks response chunks e2) as [hl e3] eqn:E3; simpl.
  open_chat w. rewrite Hq, Ht.
  unfold bind at 1; unfold get_session at 1. rewrite Hl. simpl negb. cbv iota.
  unfold append_message, within, call, emit, get_session, put_session, bind.
  simpl. rewrite E1. simpl. rewrite E2. simpl. rewrite E3. simpl.
  destruct (truthy_list hl).
  - rewrite show_source_chunks_run. unfold ret. simpl.
    rewrite ?app_nil_r, <- ?app_assoc, ?Hl. reflexivity.
  - unfold ret. simpl. rewrite ?app_nil_r, <- ?app_assoc, ?Hl. reflexivity.
Qed.

(** The stored messages of a world that has those of [w] and more are shown
    as those of [w], then the others. *)
Lemma past_of_appended (w v : World Ext) (more : list Message.t) :
  messages (session v) = messages (session w) ++ more ->
  past v = past w
           ++ concat (map (fun m => trace_of (show_message (Chunk := Chunk) m w)) more).
Proof.
  intros Hv. unfold history. rewrite Hv.
  rewrite (stored_messages_same _ v w), !stored_messages_run.
  unfold trace_of; simpl. now rewrite map_app, concat_app.
Qed.

Lemma question_answer_pairs_app (l more : list Message.t) :
  question_answer_pairs l -> question_answer_pairs more ->
  question_answer_pairs (l ++ more).
Proof.
  intros Hl Hmore.
  assert (H : forall k : list Message.t,
            (question_answer_pairs k -> question_answer_pairs (k ++ more))
            /\ (forall m, question_answer_pairs (m :: k) ->
                          question_answer_pairs ((m :: k) ++ more))).
  { induction k as [|a k [IH1 IH2]].
    - split; [intros _; exact Hmore | intros m []].
    - split; [apply IH2|]. intros m (Hu & Hn & Ha & Hs & Hk).
      simpl. repeat split; auto. }
  now apply H.
Qed.

Lemma question_answer_pairs_even (l : list Message.t) :
  question_answer_pairs l -> Nat.Even (length l).
Proof.
  assert (H : forall k : list Message.t,
            (question_answer_pairs k -> Nat.Even (length k))
            /\ (forall m, question_answer_pairs (m :: k) -> Nat.Even (length (m :: k)))).
  { induction k as [|a k [IH1 IH2]].
    - split; [intros _; now exists 0%nat | intros m []].
    - split; [apply IH2|]. intros m (_ & _ & _ & _ & Hk).
      destruct (IH1 Hk) as [n Hn]. exists (S n). simpl. rewrite Hn. lia. }
  apply H.
Qed.

(** Where the lines of chunk [i] stand among the lines of all chunks. *)
Lemma chunk_lines_lookup (h : nat -> nat) (chunks : list SourceChunk)
    (i : nat) (chunk : SourceChunk) :
  chunks !! i = Some chunk ->
  concat (imap (fun i chunk =>
            [StMarkdown (SourceChunkTitle (h i + 1)%nat (source chunk)) false;
             StText (text chunk) : Event Chunk]) chunks) !! (2 * i)%nat
  = Some (StMarkdown (SourceChunkTitle (h i + 1)%nat (source chunk)) false)
  /\ concat (imap (fun i chunk =>
               [StMarkdown (SourceChunkTitle (h i + 1)%nat (source chunk)) false;
                StText (text chunk) : Event Chunk]) chunks) !! (2 * i + 1)%nat
     = Some (StText (text chunk)).
Proof.
  revert h i. induction chunks as [|c chunks IH]; intros h i Hi; [discriminate Hi|].
  destruct i as [|i].
  - injection Hi as ->. split; reflexivity.
  - simpl in Hi. destruct (IH (fun j => h (S j)) i Hi) as [H1 H2].
    replace (2 * S i)%nat with (S (S (2 * i))) by lia.
    replace (S (S (2 * i)) + 1)%nat with (S (S (2 * i + 1))) by lia.
    split; [exact H1 | exact H2].
Qed.

Lemma chunk_lines_length (h : nat -> nat) (chunks : list SourceChunk) :
  length (concat (imap (fun i chunk =>
            [StMarkdown (SourceChunkTitle (h i + 1)%nat (source chunk)) false;
             StText (text chunk) : Event Chunk]) chunks))
  = (2 * length chunks)%nat.
Proof.
  revert h. induction chunks as [|c chunks IH]; intros h; [reflexivity|].
  simpl. transitivity (S (S (2 * length chunks))); [|lia].
  do 2 f_equal. exact (IH (fun j => h (S j))).
Qed.

(** X10: a run in which no question comes from the input ([None], or the
    empty string) lists the stored messages and stops: nothing is called and
    nothing changes. *)
Theorem run_without_question_changes_nothing (w : World Ext) :
  match chat_input (widgets w) with
  | Some q => q = ""
  | None => True
  end ->
  world_of (chat w) = w
  /\ calls (trace_of (chat w)) = []
  /\ trace_of (chat w) = StHeader AskQuestions :: past w ++ [StChatInput].
Proof.
  intros Hq.
  assert (Hidle : match chat_input (widgets w) with
                  | Some q => truthy_str q = false
                  | None => True
                  end)
    by (destruct (chat_input (widgets w)); [now subst | exact I]).
  rewrite (chat_idle w Hidle). split; [reflexivity|]. split; [|reflexivity].
  unfold trace_of; simpl snd. rewrite calls_cons, calls_app.
  now destruct (history_run w) as [_ ->].
Qed.

(** X11: a question asked with a document loaded appends two messages, the
    question under the role ["user"] and then, under ["assistant"], the very
    response the generator returned together with the very chunks
    [highlight_matching_chunks] returned; what is behind the services is left
    as the last call left it, and the response is rendered. *)
Theorem answer_is_stored_as_produced (w : World Ext) (q : string) :
  chat_input (widgets w) = Some q -> truthy_str q = true ->
  document_loaded (session w) = true ->
  let r1 := retrieve_relevant_chunks q pinecone_index tokenizer embedding_model (ext w) in
  let r2 := generate_response_func q (fst r1) groq_client llm_model (snd r1) in
  let r3 := highlight_matching_chunks (fst r2) (fst r1) (snd r2) in
  messages (session (world_of (chat w)))
  = messages (session w)
    ++ [Message.mk "user" q None; Message.mk "assistant" (fst r2) (Some (fst r3))]
  /\ ext (world_of (chat w)) = snd r3
  /\ StMarkdown (Plain (fst r2)) false ∈ trace_of (chat w).
Proof.
  intros Hq Ht Hl r1 r2 r3.
  rewrite (chat_loaded_run w q Hq Ht Hl). fold r1 r2 r3.
  split; [reflexivity|]. split; [reflexivity|].
  unfold trace_of; simpl snd.
  apply list_elem_of_further, elem_of_app. right. find_member.
Qed.

(** X12: the run after an answered question shows the stored conversation
    as before, then the question, then the response with the expander of its
    source chunks, numbered from 1. *)
Theorem stored_answer_is_shown_again (w : World Ext) (q : string) :
  chat_input (widgets w) = Some q -> truthy_str q = true ->
  document_loaded (session w) = true ->
  let r1 := retrieve_relevant_chunks q pinecone_index tokenizer embedding_model (ext w) in
  let r2 := generate_response_func q (fst r1) groq_client llm_model (snd r1) in
  let r3 := highlight_matching_chunks (fst r2) (fst r1) (snd r2) in
  past (world_of (chat w))
  = past w
    ++ [Enter (ChatMessage "user"); StMarkdown (Plain q) false;
        Leave (ChatMessage "user");
        Enter (ChatMessage "assistant"); StMarkdown (Plain (fst r2)) false;
        Enter (Expander "View Source Chunks")]
    ++ concat (imap (fun i chunk =>
                       [StMarkdown (SourceChunkTitle (i + 1)%nat (source chunk)) false;
                        StText (text chunk)]) (fst r3))
    ++ [Leave (Expander "View Source Chunks"); Leave (ChatMessage "assistant")].
Proof.
  intros Hq Ht Hl r1 r2 r3.
  rewrite (past_of_appended w (world_of (chat w))
             [Message.mk "user" q None; Message.mk "assistant" (fst r2) (Some (fst r3))])
    by (rewrite (chat_loaded_run w q Hq Ht Hl); reflexivity).
  f_equal. unfold show_message, within, bind, emit, ret, trace_of. simpl.
  rewrite show_source_chunks_run. simpl. rewrite ?app_nil_r, <- ?app_assoc.
  reflexivity.
Qed.

(** X13: when [highlight_matching_chunks] returns no chunk, the run that
    answers renders no expander after the response, but it stores the empty
    list with the message, and the next run shows that message with an
    expander that has nothing in it. *)
Theorem answer_without_matches_gets_its_expander_later (w : World Ext) (q : string) :
  chat_input (widgets w) = Some q -> truthy_str q = true ->
  document_loaded (session w) = true ->
  let r1 := retrieve_relevant_chunks q pinecone_index tokenizer embedding_model (ext w) in
  let r2 := generate_response_func q (fst r1) groq_client llm_model (snd r1) in
  fst (highlight_matching_chunks (fst r2) (fst r1) (snd r2)) = [] ->
  trace_of (chat w)
  = StHeader AskQuestions :: past w ++
    [StChatInput;
     Enter (ChatMessage "user"); StMarkdown (Plain q) false;
     Leave (ChatMessage "user");
     Enter (ChatMessage "assistant"); Enter (Spinner "Thinking...");
     RetrieveRelevantChunks q (fst r1);
     GenerateResponse q (fst r1) (fst r2);
     StMarkdown (Plain (fst r2)) false;
     HighlightMatchingChunks (fst r2) (fst r1) [];
     Leave (Spinner "Thinking..."); Leave (ChatMessage "assistant")]
  /\ past (world_of (chat w))
     = past w
       ++ [Enter (ChatMessage "user"); StMarkdown (Plain q) false;
           Leave (ChatMessage "user");
           Enter (ChatMessage "assistant"); StMarkdown (Plain (fst r2)) false;
           Enter (Expander "View Source Chunks");
           Leave (Expander "View Source Chunks");
           Leave (ChatMessage "assistant")].
Proof.
  intros Hq Ht Hl r1 r2 Hnone.
  split.
  - rewrite (chat_loaded_run w q Hq Ht Hl). fold r1 r2. rewrite Hnone.
    unfold trace_of. simpl. rewrite <- ?app_assoc. reflexivity.
  - rewrite (past_of_appended w (world_of (chat w))
               [Message.mk "user" q None; Message.mk "assistant" (fst r2) (Some [])])
      by (rewrite (chat_loaded_run w q Hq Ht Hl); fold r1 r2; now rewrite Hnone).
    f_equal.
Qed.

(** X14: the source chunks are listed inside one expander, in the order
    given and numbered from 1: chunk [i] gives the title with number [i + 1]
    and its source, and right after it its text. *)
Theorem source_chunks_are_listed_in_order (chunks : list SourceChunk) (w : World Ext) :
  let listing := trace_of (show_source_chunks (Chunk := Chunk) chunks w) in
  length listing = (2 * length chunks + 2)%nat
  /\ listing !! 0%nat = Some (Enter (Expander "View Source Chunks"))
  /\ listing !! (2 * length chunks + 1)%nat = Some (Leave (Expander "View Source Chunks"))
  /\ forall i chunk, chunks !! i = Some chunk ->
       listing !! (2 * i + 1)%nat
       = Some (StMarkdown (SourceChunkTitle (i + 1)%nat (source chunk)) false)
       /\ listing !! (2 * i + 2)%nat = Some (StText (text chunk)).
Proof.
  intros listing. subst listing. rewrite show_source_chunks_run.
  unfold trace_of; simpl snd.
  pose proof (chunk_lines_length id chunks) as Hlen. unfold id in Hlen.
  split; [simpl; rewrite length_app, Hlen; simpl; lia|].
  split; [reflexivity|].
  split.
  { replace (2 * length chunks + 1)%nat with (S (2 * length chunks)) by lia.
    simpl. rewrite lookup_app_r by lia. rewrite Hlen, Nat.sub_diag. reflexivity. }
  intros i chunk Hi.
  destruct (chunk_lines_lookup id chunks i chunk Hi) as [H1 H2]. unfold id in H1, H2.
  pose proof (lookup_lt_Some _ _ _ Hi) as Hlt.
  replace (2 * i + 1)%nat with (S (2 * i)) by lia.
  replace (2 * i + 2)%nat with (S (2 * i + 1)) by lia.
  simpl. rewrite !lookup_app_l by lia. split; assumption.
Qed.

(** X15: [create_chat_interface] changes nothing but the messages and what
    is behind the services: the loaded flag, the document name, the
    [highlighted_chunks] key, the local files and the widgets are as before. *)
Theorem chat_keeps_all_but_the_messages (w : World Ext) :
  document_loaded (session (world_of (chat w))) = document_loaded (session w)
  /\ document_name (session (world_of (chat w))) = document_name (session w)
  /\ highlighted_chunks (session (world_of (chat w))) = highlighted_chunks (session w)
  /\ fs (world_of (chat w)) = fs w
  /\ widgets (world_of (chat w)) = widgets w.
Proof.
  destruct (chat_cases w) as [Hidle | (q & Hq & Ht)].
  - now rewrite (chat_idle w Hidle).
  - destruct (document_loaded (session w)) eqn:Hl.
    + rewrite (chat_loaded_run w q Hq Ht Hl). simpl. auto.
    + now rewrite (chat_not_loaded w q Hq Ht Hl).
Qed.

(** X17: a conversation made of questions each followed by its answer stays
    one through [create_chat_interface] and through [create_sidebar]; it then
    has an even number of messages. *)
Theorem conversation_stays_in_pairs (limit : Q) (w : World Ext) :
  question_answer_pairs (messages (session w)) ->
  question_answer_pairs (messages (session (world_of (chat w))))
  /\ question_answer_pairs (messages (session (world_of (sidebar limit w))))
  /\ Nat.Even (length (messages (session (world_of (chat w))))).
Proof.
  intros Hpairs.
  assert (Hchat : question_answer_pairs (messages (session (world_of (chat w))))).
  { destruct (chat_cases w) as [Hidle | (q & Hq & Ht)].
    - now rewrite (chat_idle w Hidle).
    - destruct (document_loaded (session w)) eqn:Hl.
      + rewrite (chat_loaded_run w q Hq Ht Hl). simpl.
        apply question_answer_pairs_app; [exact Hpairs|].
        simpl. repeat split; eauto.
      + now rewrite (chat_not_loaded w q Hq Ht Hl). }
  split; [exact Hchat|]. split.
  - destruct (sidebar_frame limit w) as (-> & _). exact Hpairs.
  - now apply question_answer_pairs_even.
Qed.

End Properties.

(** * The properties on the sample instance *)

Lemma zeros_length (n : Z) : 0 <= n -> Z.of_nat (length (Sample.zeros n)) = n.
Proof. intros Hn. unfold Sample.zeros. rewrite List.repeat_length. lia. Qed.

(** The empty file in a new session: its ingestion fails and the document is
    not marked loaded. *)
Lemma failed_ingestion_witness :
  ProcessPdfDocument Sample.empty_pdf false 0
    ∈ trace_of (Sample.sidebar 10 Sample.empty_upload)
  /\ document_loaded (session (world_of (Sample.sidebar 10 Sample.empty_upload))) = false
  /\ document_loaded
       (session (world_of (Sample.chat
                             (world_of (Sample.sidebar 10 Sample.empty_upload))))) = false.
Proof.
  assert (H : ProcessPdfDocument Sample.empty_pdf false 0
                ∈ trace_of (Sample.sidebar 10 Sample.empty_upload))
    by (vm_compute; in_trace).
  split; [exact H|].
  unfold Sample.sidebar, Sample.chat in *.
  eapply failed_ingestion_leaves_document_unloaded. exact H.
Defined.

(** C2, as stated, fails: [report.pdf] is loaded, a second version of it is
    uploaded, and the run does not call [process_pdf_document]; the index is
    as it was and retrieval still gives the chunk of the first version. *)
Lemma second_upload_of_same_name_is_skipped :
  document_loaded (session Sample.second_upload) = true
  /\ document_name (session Sample.second_upload)
     = Some (UploadedFile.name Sample.report_v2)
  /\ file_uploader (widgets Sample.second_upload) = Some Sample.report_v2
  /\ ~ (exists ok n, ProcessPdfDocument Sample.report_v2 ok n
                       ∈ trace_of (Sample.sidebar 10 Sample.second_upload))
  /\ ext (world_of (Sample.sidebar 10 Sample.second_upload)) = Sample.report_index
  /\ fst (Sample.retrieve_relevant_chunks "What is the report about?" tt tt tt
            (ext (world_of (Sample.sidebar 10 Sample.second_upload))))
     = [Sample.report_chunk].
Proof.
  repeat split; try reflexivity.
  intros (ok & n & Hin). vm_compute in Hin. in_trace.
Qed.

Lemma same_name_upload_witness :
  file_uploader (widgets Sample.second_upload) = Some Sample.report_v2
  /\ (megabytes (UploadedFile.size Sample.report_v2) <= 10)%Q
  /\ session (world_of (Sample.sidebar 10 Sample.second_upload))
     = session Sample.second_upload.
Proof.
  assert (Hle : (megabytes (UploadedFile.size Sample.report_v2) <= 10)%Q)
    by (vm_compute; discriminate).
  split; [reflexivity|]. split; [exact Hle|].
  unfold Sample.sidebar.
  eapply (same_name_upload_is_not_ingested_again _ _ _ _ _ _ _ _ _ Sample.report_v2);
    [reflexivity | exact Hle | reflexivity | reflexivity].
Defined.

(** A question typed before any upload: the warning is shown and nothing is
    called. *)
Lemma refused_question_witness :
  chat_input (widgets Sample.early_question) = Some "What is the report about?"
  /\ truthy_str "What is the report about?" = true
  /\ document_loaded (session Sample.early_question) = false
  /\ trace_of (Sample.chat Sample.early_question)
     = [StHeader AskQuestions; StChatInput; Enter (ChatMessage "assistant");
        StMarkdown PleaseUploadFirst false; Leave (ChatMessage "assistant")]
  /\ calls (trace_of (Sample.chat Sample.early_question)) = [].
Proof.
  repeat (split; [reflexivity|]). unfold Sample.chat.
  apply (question_without_document_is_refused _ _ _ _ _ _ _ _
           Sample.early_question "What is the report about?");
    reflexivity.
Defined.

Lemma unrecorded_question_witness :
  chat_input (widgets Sample.early_question) = Some "What is the report about?"
  /\ truthy_str "What is the report about?" = true
  /\ document_loaded (session Sample.early_question) = false
  /\ messages (session (world_of (Sample.chat Sample.early_question))) = [].
Proof.
  repeat (split; [reflexivity|]). unfold Sample.chat.
  apply (question_without_document_is_not_recorded _ _ _ _ _ _ _ _
           Sample.early_question "What is the report about?");
    reflexivity.
Defined.

(** A question with [report.pdf] loaded: retrieval, generation, matching. *)
Lemma pipeline_witness :
  chat_input (widgets Sample.report_question) = Some "What is the report about?"
  /\ truthy_str "What is the report about?" = true
  /\ document_loaded (session Sample.report_question) = true
  /\ calls (trace_of (Sample.chat Sample.report_question))
     = [RetrieveRelevantChunks "What is the report about?" [Sample.report_chunk];
        GenerateResponse "What is the report about?" [Sample.report_chunk]
          "Answer to: What is the report about?";
        HighlightMatchingChunks "Answer to: What is the report about?"
          [Sample.report_chunk] [Sample.report_chunk]].
Proof.
  repeat (split; [reflexivity|]).
  exact (question_runs_the_pipeline_once_in_order
           Sample.retrieve_relevant_chunks Sample.highlight_matching_chunks
           Sample.generate_response tt tt tt tt "llm"
           Sample.report_question "What is the report about?"
           eq_refl eq_refl eq_refl).
Defined.

(** The small file in a new session: ingested, then saved under its name. *)
Lemma saved_upload_witness :
  file_uploader (widgets Sample.first_upload) = Some Sample.notes_pdf
  /\ ProcessPdfDocument Sample.notes_pdf true 1
       ∈ trace_of (Sample.sidebar 10 Sample.first_upload)
  /\ fs (world_of (Sample.sidebar 10 Sample.first_upload))
     = <["notes.pdf" := ["n"; "o"; "t"; "e"]%byte]> ∅
  /\ trace_of (Sample.sidebar 10 Sample.first_upload)
     = [Enter Sidebar; StHeader DocumentUpload; StFileUploader 10; StCaption 10;
        Enter (Spinner "Processing document...");
        ProcessPdfDocument Sample.notes_pdf true 1;
        StSuccess (Processed "notes.pdf" 1);
        WriteFile "notes.pdf" ["n"; "o"; "t"; "e"]%byte;
        GetPdfDownloadLink "notes.pdf" "download:notes.pdf";
        StMarkdown (Plain "download:notes.pdf") true;
        Leave (Spinner "Processing document..."); Leave Sidebar].
Proof.
  assert (Hin : ProcessPdfDocument Sample.notes_pdf true 1
                  ∈ trace_of (Sample.sidebar 10 Sample.first_upload))
    by (vm_compute; in_trace).
  split; [reflexivity|]. split; [exact Hin|]. unfold Sample.sidebar in *.
  pose proof (upload_is_saved_exactly_on_success (Chunk := SourceChunk)
                Sample.process_pdf_document Sample.get_pdf_download_link
                tt tt tt 500 50 10 Sample.first_upload Sample.notes_pdf eq_refl)
    as (_ & Hsaved & _ & Hrun & _).
  split.
  - apply Hsaved. exists 1. exact Hin.
  - exact (proj1 (proj2 (Hrun 1 Hin))).
Defined.

(** C9, as stated, fails: the limit is 1 MB, [report.pdf] is loaded, and a
    [report.pdf] of exactly one mebibyte is uploaded; the run does not call
    [process_pdf_document]. *)
Lemma upload_at_limit_of_loaded_name_is_skipped :
  Z.of_nat (length (UploadedFile.getvalue Sample.one_mib_report))
  = UploadedFile.size Sample.one_mib_report
  /\ (megabytes (UploadedFile.size Sample.one_mib_report) == 1)%Q
  /\ file_uploader (widgets Sample.upload_at_limit_again) = Some Sample.one_mib_report
  /\ ~ (exists ok n, ProcessPdfDocument Sample.one_mib_report ok n
                       ∈ trace_of (Sample.sidebar 1 Sample.upload_at_limit_again)).
Proof.
  split; [now apply zeros_length|].
  split; [now apply (megabytes_at_limit _ 1)|].
  split; [reflexivity|].
  intros Hin. unfold Sample.sidebar in Hin.
  apply within_limit_ingest_iff in Hin;
    [| reflexivity | now apply Qgtb_false].
  destruct Hin as [Hl|Hn]; [discriminate Hl | now apply Hn].
Qed.

(** The one-mebibyte file in a new session, with a limit of 1 MB: accepted
    and ingested. *)
Lemma upload_at_limit_witness :
  file_uploader (widgets Sample.upload_at_limit) = Some Sample.one_mib_report
  /\ (megabytes (UploadedFile.size Sample.one_mib_report) == 1)%Q
  /\ exists ok n, ProcessPdfDocument Sample.one_mib_report ok n
                    ∈ trace_of (Sample.sidebar 1 Sample.upload_at_limit).
Proof.
  assert (Heq : (megabytes (UploadedFile.size Sample.one_mib_report) == 1)%Q)
    by now apply (megabytes_at_limit _ 1).
  split; [reflexivity|]. split; [exact Heq|]. unfold Sample.sidebar.
  apply (file_at_the_limit_is_accepted _ _ _ _ _ _ _ 1
           Sample.upload_at_limit Sample.one_mib_report eq_refl Heq).
  left. reflexivity.
Defined.

(** * Between runs *)

(** X16: [init_session_state] sets only the keys that are missing, each to
    its default and each on its own; a key that is there keeps its value, so
    the state one run leaves is the state the next run starts from. *)
Theorem init_session_state_keeps_what_is_set (raw : RawSessionState) :
  (forall m, raw_messages raw = Some m -> messages (init_session_state raw) = m)
  /\ (forall b, raw_document_loaded raw = Some b ->
                document_loaded (init_session_state raw) = b)
  /\ (forall n, raw_document_name raw = Some n ->
                document_name (init_session_state raw) = n)
  /\ (forall h, raw_highlighted_chunks raw = Some h ->
                highlighted_chunks (init_session_state raw) = h)
  /\ (raw_messages raw = None -> messages (init_session_state raw) = [])
  /\ (raw_document_loaded raw = None -> document_loaded (init_session_state raw) = false)
  /\ (raw_document_name raw = None -> document_name (init_session_state raw) = None)
  /\ (raw_highlighted_chunks raw = None ->
      highlighted_chunks (init_session_state raw) = [])
  /\ (forall s, init_session_state (stored_session s) = s).
Proof.
  unfold init_session_state.
  repeat split; try (intros x Hx; rewrite Hx; reflexivity);
    try (intros Hx; rewrite Hx; reflexivity).
  intros []. reflexivity.
Qed.

(** * The further properties on the sample instance *)

Lemma empty_uploader_witness :
  file_uploader (widgets Cases.cleared_uploader) = None
  /\ world_of (Sample.sidebar 10 Cases.cleared_uploader) = Cases.cleared_uploader.
Proof.
  split; [reflexivity|]. unfold Sample.sidebar.
  apply (empty_uploader_changes_nothing _ _ _ _ _ _ _ 10 Cases.cleared_uploader).
  reflexivity.
Defined.

Lemma size_error_in_bytes_witness :
  file_uploader (widgets Cases.big_upload) = Some Cases.two_mib_pdf
  /\ 1 * 1048576 < UploadedFile.size Cases.two_mib_pdf
  /\ exists a b, StError (FileTooLarge a b)
                   ∈ trace_of (Sample.sidebar (inject_Z 1) Cases.big_upload).
Proof.
  split; [reflexivity|]. split; [reflexivity|]. unfold Sample.sidebar.
  apply (size_error_in_bytes _ _ _ _ _ _ _ 1 Cases.big_upload Cases.two_mib_pdf eq_refl).
  reflexivity.
Defined.

Lemma loaded_when_ingested_witness :
  file_uploader (widgets Sample.first_upload) = Some Sample.notes_pdf
  /\ document_name (session (world_of (Sample.sidebar 10 Sample.first_upload)))
     = Some "notes.pdf".
Proof.
  split; [reflexivity|].
  exact (proj2 (document_is_loaded_when_kept_or_ingested
                  Sample.process_pdf_document Sample.get_pdf_download_link
                  tt tt tt 500 50 10 Sample.first_upload Sample.notes_pdf eq_refl)).
Defined.

Lemma reported_on_rerun_witness :
  file_uploader (widgets Sample.first_upload) = Some Sample.notes_pdf
  /\ (megabytes (UploadedFile.size Sample.notes_pdf) <= 10)%Q
  /\ ProcessPdfDocument Sample.notes_pdf true 1
       ∈ trace_of (Sample.sidebar 10 Sample.first_upload)
  /\ session (world_of (Sample.sidebar 10
                          (world_of (Sample.sidebar 10 Sample.first_upload))))
     = session (world_of (Sample.sidebar 10 Sample.first_upload)).
Proof.
  assert (Hle : (megabytes (UploadedFile.size Sample.notes_pdf) <= 10)%Q)
    by (vm_compute; discriminate).
  assert (Hin : ProcessPdfDocument Sample.notes_pdf true 1
                  ∈ trace_of (Sample.sidebar 10 Sample.first_upload))
    by (vm_compute; in_trace).
  split; [reflexivity|]. split; [exact Hle|]. split; [exact Hin|].
  unfold Sample.sidebar in *.
  apply (ingested_upload_is_only_reported_on_rerun _ _ _ _ _ _ _ 10
           Sample.first_upload Sample.notes_pdf 1 eq_refl Hle Hin).
Defined.

Lemma over_limit_every_run_witness :
  file_uploader (widgets Cases.big_upload) = Some Cases.two_mib_pdf
  /\ (1 < megabytes (UploadedFile.size Cases.two_mib_pdf))%Q
  /\ exists rest,
       trace_of (Sample.sidebar 1 (world_of (Sample.sidebar 1 Cases.big_upload))) =
         [Enter Sidebar; StHeader DocumentUpload; StFileUploader 1; StCaption 1;
          StError (FileTooLarge (megabytes (UploadedFile.size Cases.two_mib_pdf)) 1);
          Enter (Spinner "Processing document...");
          ProcessPdfDocument Cases.two_mib_pdf
            (fst (fst (Sample.process_pdf_document Cases.two_mib_pdf tt tt tt 500 50
                         (ext (world_of (Sample.sidebar 1 Cases.big_upload))))))
            (snd (fst (Sample.process_pdf_document Cases.two_mib_pdf tt tt tt 500 50
                         (ext (world_of (Sample.sidebar 1 Cases.big_upload))))))]
         ++ rest.
Proof.
  assert (Hgt : (1 < megabytes (UploadedFile.size Cases.two_mib_pdf))%Q)
    by (apply Qgtb_true; reflexivity).
  split; [reflexivity|]. split; [exact Hgt|]. unfold Sample.sidebar.
  exact (proj1 (proj2 (over_limit_upload_is_ingested_by_every_run
                         (Chunk := SourceChunk)
                         Sample.process_pdf_document Sample.get_pdf_download_link
                         tt tt tt 500 50 1 Cases.big_upload Cases.two_mib_pdf
                         eq_refl Hgt))).
Defined.

Lemma retried_on_rerun_witness :
  file_uploader (widgets Sample.empty_upload) = Some Sample.empty_pdf
  /\ ProcessPdfDocument Sample.empty_pdf false 0
       ∈ trace_of (Sample.sidebar 10 Sample.empty_upload)
  /\ exists ok n,
       ProcessPdfDocument Sample.empty_pdf ok n
         ∈ trace_of (Sample.sidebar 10 (world_of (Sample.sidebar 10 Sample.empty_upload))).
Proof.
  assert (Hin : ProcessPdfDocument Sample.empty_pdf false 0
                  ∈ trace_of (Sample.sidebar 10 Sample.empty_upload))
    by (vm_compute; in_trace).
  split; [reflexivity|]. split; [exact Hin|]. unfold Sample.sidebar in *.
  apply (failed_ingestion_is_retried_on_rerun _ _ _ _ _ _ _ 10
           Sample.empty_upload Sample.empty_pdf 0 eq_refl Hin).
Defined.

Lemma stays_saved_witness :
  loaded_document_is_saved Sample.second_upload
  /\ (forall f, file_uploader (widgets Sample.second_upload) = Some f ->
                (megabytes (UploadedFile.size f) <= 10)%Q)
  /\ loaded_document_is_saved (world_of (Sample.sidebar 10 Sample.second_upload)).
Proof.
  assert (Hinv : loaded_document_is_saved Sample.second_upload).
  { intros _. exists "report.pdf". split; [reflexivity|].
    exists ["a"; "b"; "c"]%byte. vm_compute. reflexivity. }
  assert (Hle : forall f, file_uploader (widgets Sample.second_upload) = Some f ->
                          (megabytes (UploadedFile.size f) <= 10)%Q).
  { intros f Hf. injection Hf as <-. vm_compute. discriminate. }
  split; [exact Hinv|]. split; [exact Hle|]. unfold Sample.sidebar.
  exact (proj1 (loaded_document_stays_saved
                  Sample.process_pdf_document Sample.retrieve_relevant_chunks
                  Sample.highlight_matching_chunks Sample.get_pdf_download_link
                  Sample.generate_response tt tt tt tt "llm" 500 50
                  10 Sample.second_upload Hinv Hle)).
Defined.

Lemma no_question_witness :
  chat_input (widgets Cases.empty_question) = Some ""
  /\ world_of (Sample.chat Cases.empty_question) = Cases.empty_question.
Proof.
  split; [reflexivity|]. unfold Sample.chat.
  apply (run_without_question_changes_nothing _ _ _ _ _ _ _ _ Cases.empty_question).
  reflexivity.
Defined.

Lemma stored_answer_witness :
  chat_input (widgets Sample.report_question) = Some "What is the report about?"
  /\ truthy_str "What is the report about?" = true
  /\ document_loaded (session Sample.report_question) = true
  /\ messages (session (world_of (Sample.chat Sample.report_question)))
     = [Message.mk "user" "What is the report about?" None;
        Message.mk "assistant" "Answer to: What is the report about?"
          (Some [Sample.report_chunk])].
Proof.
  repeat (split; [reflexivity|]).
  exact (proj1 (answer_is_stored_as_produced
                  Sample.retrieve_relevant_chunks Sample.highlight_matching_chunks
                  Sample.generate_response tt tt tt tt "llm"
                  Sample.report_question "What is the report about?"
                  eq_refl eq_refl eq_refl)).
Defined.

Lemma shown_again_witness :
  chat_input (widgets Sample.report_question) = Some "What is the report about?"
  /\ truthy_str "What is the report about?" = true
  /\ document_loaded (session Sample.report_question) = true
  /\ history (world_of (Sample.chat Sample.report_question))
     = [Enter (ChatMessage "user");
        StMarkdown (Plain "What is the report about?") false;
        Leave (ChatMessage "user");
        Enter (ChatMessage "assistant");
        StMarkdown (Plain "Answer to: What is the report about?") false;
        Enter (Expander "View Source Chunks");
        StMarkdown (SourceChunkTitle 1 "report.pdf, page 1") false;
        StText "abc";
        Leave (Expander "View Source Chunks");
        Leave (ChatMessage "assistant") : Event SourceChunk].
Proof.
  repeat (split; [reflexivity|]).
  exact (stored_answer_is_shown_again
           Sample.retrieve_relevant_chunks Sample.highlight_matching_chunks
           Sample.generate_response tt tt tt tt "llm"
           Sample.report_question "What is the report about?"
           eq_refl eq_refl eq_refl).
Defined.

Lemma expander_later_witness :
  chat_input (widgets Sample.report_question) = Some "What is the report about?"
  /\ truthy_str "What is the report about?" = true
  /\ document_loaded (session Sample.report_question) = true
  /\ fst (Cases.highlight_nothing "Answer to: What is the report about?"
            [Sample.report_chunk] Sample.report_index) = []
  /\ history (world_of (Cases.chat_without_matches Sample.report_question))
     = [Enter (ChatMessage "user");
        StMarkdown (Plain "What is the report about?") false;
        Leave (ChatMessage "user");
        Enter (ChatMessage "assistant");
        StMarkdown (Plain "Answer to: What is the report about?") false;
        Enter (Expander "View Source Chunks");
        Leave (Expander "View Source Chunks");
        Leave (ChatMessage "assistant") : Event SourceChunk].
Proof.
  repeat (split; [reflexivity|]).
  exact (proj2 (answer_without_matches_gets_its_expander_later
                  Sample.retrieve_relevant_chunks Cases.highlight_nothing
                  Sample.generate_response tt tt tt tt "llm"
                  Sample.report_question "What is the report about?"
                  eq_refl eq_refl eq_refl eq_refl)).
Defined.

Lemma in_pairs_witness :
  question_answer_pairs (messages (session Cases.follow_up_question))
  /\ messages (session (world_of (Sample.chat Cases.follow_up_question)))
     = Cases.first_exchange
       ++ [Message.mk "user" "Who wrote it?" None;
           Message.mk "assistant" "Answer to: Who wrote it?"
             (Some [Sample.report_chunk])]
  /\ question_answer_pairs
       (messages (session (world_of (Sample.chat Cases.follow_up_question))))
  /\ question_answer_pairs
       (messages (session (world_of (Sample.sidebar 10 Cases.follow_up_question))))
  /\ Nat.Even (length (messages (session (world_of
                                           (Sample.chat Cases.follow_up_question))))).
Proof.
  assert (Hpairs : question_answer_pairs (messages (session Cases.follow_up_question))).
  { simpl. repeat split; try reflexivity. exists [Sample.report_chunk]. reflexivity. }
  split; [exact Hpairs|]. split; [reflexivity|].
  exact (conversation_stays_in_pairs
           Sample.process_pdf_document Sample.retrieve_relevant_chunks
           Sample.highlight_matching_chunks Sample.get_pdf_download_link
           Sample.generate_response tt tt tt tt "llm" 500 50
           10 Cases.follow_up_question Hpairs).
Defined.
